(** * The settings store of GlanceThing: [src/main/lib/storage.ts]

    A shallow embedding of the key/value store kept in [storage.json]
    (get, set, handler dispatch, secure values, the socket password) and
    the properties of its specification; then the settings page that
    reads and writes it, [src/renderer/src/pages/Settings/Settings.tsx]. *)

From Stdlib Require Import ZArith Strings.Byte Strings.Ascii DecimalString.
From stdpp Require Import gmap strings list fin_maps.

Set Warnings "-register-all".
Local Open Scope string_scope.

(** ** JavaScript values *)

(** The values the store handles ([value: unknown] in the source): the JSON
    values and [undefined]. A number is modelled by an integer (fractions
    are not values of the model; how a number is printed is left to the
    platform), a string by its bytes, an object by the finite map of its
    own properties; what a plain object inherits from [Object.prototype] is
    modelled below, with the reads and the writes of a property. *)
Inductive jsval :=
| JUndefined
| JNull
| JBool (b : bool)
| JNum (n : Z)
| JStr (s : string)
| JArr (items : list jsval)
| JObj (props : gmap string jsval).

(** [Record<string, unknown>], the type the source gives the document. *)
Abbreviation document := (gmap string jsval).

(** [value === undefined] *)
Definition is_undefined (v : jsval) : bool :=
  match v with JUndefined => true | _ => false end.

(** Truthiness, as [!x], [if (x)] and [x || y] test it. *)
Definition truthy (v : jsval) : bool :=
  match v with
  | JUndefined | JNull => false
  | JBool b => b
  | JNum n => negb (n =? 0)%Z
  | JStr s => negb (String.eqb s "")
  | JArr _ | JObj _ => true
  end.

(** [items.join(sep)] on strings. *)
Fixpoint join (sep : string) (items : list string) : string :=
  match items with
  | [] => ""
  | [s] => s
  | s :: rest => s ++ sep ++ join sep rest
  end.

(** What [JSON.parse(JSON.stringify(v))] makes of a value: a property whose
    value is [undefined] is left out of an object, an [undefined] element of
    an array becomes [null]. *)
Fixpoint jsonify (v : jsval) : jsval :=
  match v with
  | JArr items =>
      JArr (map (fun x => match x with
                          | JUndefined => JNull
                          | _ => jsonify x
                          end) items)
  | JObj props =>
      JObj (omap (fun x => match x with
                           | JUndefined => None
                           | _ => Some (jsonify x)
                           end) props)
  | _ => v
  end.

Definition jsonify_item (x : jsval) : jsval :=
  match x with JUndefined => JNull | _ => jsonify x end.

Definition jsonify_property (x : jsval) : option jsval :=
  match x with JUndefined => None | _ => Some (jsonify x) end.

Definition jsonify_document (d : document) : document :=
  omap jsonify_property d.

(** The JSON-representable values: no [undefined] at any depth. *)
Inductive json_representable : jsval -> Prop :=
| representable_null : json_representable JNull
| representable_bool b : json_representable (JBool b)
| representable_num n : json_representable (JNum n)
| representable_str s : json_representable (JStr s)
| representable_arr items :
    (forall i x, items !! i = Some x -> json_representable x) ->
    json_representable (JArr items)
| representable_obj props :
    (forall k x, props !! k = Some x -> json_representable x) ->
    json_representable (JObj props).

Fixpoint jsval_size (v : jsval) : nat :=
  match v with
  | JArr items => S (foldr (fun x acc => jsval_size x + acc) 0 items)
  | JObj props => S (map_fold (fun _ x acc => jsval_size x + acc) 0 props)
  | _ => 1
  end.

(** ** Buffers and their hex form *)

Definition hex_digit (n : N) : ascii :=
  match n with
  | 0 => "0" | 1 => "1" | 2 => "2" | 3 => "3" | 4 => "4" | 5 => "5"
  | 6 => "6" | 7 => "7" | 8 => "8" | 9 => "9" | 10 => "a" | 11 => "b"
  | 12 => "c" | 13 => "d" | 14 => "e" | _ => "f"
  end%N%char.

Definition hex_value (c : ascii) : option N :=
  let n := N_of_ascii c in
  if (48 <=? n)%N && (n <=? 57)%N then Some (n - 48)%N
  else if (97 <=? n)%N && (n <=? 102)%N then Some (n - 87)%N
  else if (65 <=? n)%N && (n <=? 70)%N then Some (n - 55)%N
  else None.

(** [buffer.toString('hex')]: two lowercase digits per byte. *)
Fixpoint toString_hex (buffer : list byte) : string :=
  match buffer with
  | [] => ""
  | b :: rest =>
      String (hex_digit (Byte.to_N b / 16))
        (String (hex_digit (Byte.to_N b mod 16)) (toString_hex rest))
  end.

(** [Buffer.from(s, 'hex')]: one byte per pair of hex digits, stopping at
    the first pair that is not one. *)
Fixpoint Buffer_from_hex (s : string) : list byte :=
  match s with
  | String c1 (String c2 rest) =>
      match hex_value c1, hex_value c2 with
      | Some hi, Some lo =>
          match Byte.of_N (hi * 16 + lo) with
          | Some b => b :: Buffer_from_hex rest
          | None => []
          end
      | _, _ => []
      end
  | _ => []
  end.

(** ** What a plain object inherits *)

(** The properties of [Object.prototype]. The document (the result of
    [JSON.parse], or an object literal) and the table of handlers (an object
    literal) inherit them. *)
Inductive builtin :=
| ObjectPrototype        (* what the accessor [__proto__] reads as *)
| ObjectConstructor      (* [constructor], the function [Object] *)
| DefineGetter           (* [__defineGetter__] *)
| DefineSetter           (* [__defineSetter__] *)
| LookupGetter           (* [__lookupGetter__] *)
| LookupSetter           (* [__lookupSetter__] *)
| HasOwnProperty
| IsPrototypeOf
| PropertyIsEnumerable
| ToLocaleString
| ToString
| ValueOf.

(** The member of [Object.prototype] of a name. *)
Definition inherited (key : string) : option builtin :=
  if String.eqb key "__proto__" then Some ObjectPrototype
  else if String.eqb key "constructor" then Some ObjectConstructor
  else if String.eqb key "__defineGetter__" then Some DefineGetter
  else if String.eqb key "__defineSetter__" then Some DefineSetter
  else if String.eqb key "__lookupGetter__" then Some LookupGetter
  else if String.eqb key "__lookupSetter__" then Some LookupSetter
  else if String.eqb key "hasOwnProperty" then Some HasOwnProperty
  else if String.eqb key "isPrototypeOf" then Some IsPrototypeOf
  else if String.eqb key "propertyIsEnumerable" then Some PropertyIsEnumerable
  else if String.eqb key "toLocaleString" then Some ToLocaleString
  else if String.eqb key "toString" then Some ToString
  else if String.eqb key "valueOf" then Some ValueOf
  else None.

(** What [object[key]] evaluates to. *)
Inductive property (A : Type) :=
| Own (a : A)                  (* an own property of the object *)
| Inherited (member : builtin) (* a property of its prototype *)
| Undefined.                   (* no property: [undefined] *)
Arguments Own {A} a.
Arguments Inherited {A} member.
Arguments Undefined {A}.

(** [object[key]], on the map of the own properties of a plain object. *)
Definition get_property {A} (object : gmap string A) (key : string)
  : property A :=
  match object !! key with
  | Some a => Own a
  | None =>
      match inherited key with
      | Some member => Inherited member
      | None => Undefined
      end
  end.

(** [object[key] = value]: an own property takes the value; without one,
    [__proto__] is the accessor of the prototype, whose setter makes no
    property (it changes the prototype of the object, or does nothing);
    any other name becomes an own property. *)
Definition set_property {A} (object : gmap string A) (key : string) (value : A)
  : gmap string A :=
  match object !! key, inherited key with
  | None, Some ObjectPrototype => object
  | _, _ => <[key := value]> object
  end.

(** [value === undefined], of what a property read gave. *)
Definition property_is_undefined (value : property jsval) : bool :=
  match value with
  | Own v => is_undefined v
  | Inherited _ => false
  | Undefined => true
  end.

(** ** The world the store runs in *)

(** The contents of a file, up to what [JSON.parse] makes of them. The
    module writes [storage.json] only as ['{}'] and as [JSON.stringify] of
    a record; a text of any other JSON value is not modelled. *)
Inductive file_text :=
| JsonText (d : document)   (* JSON.stringify(d, null, 2) *)
| Malformed.                (* a text that JSON.parse rejects *)

(** ['{}'] *)
Definition empty_object_text : file_text := JsonText ∅.

Inductive exn :=
| ENOENT
| TypeError
| DecryptError.

(** [Native member]: the function returns a member of [Object.prototype],
    a function or the prototype itself, which is not a value of the
    model. Such a result ends the computation in the model: the module
    goes on from the result of a get only at the key [socketPassword], and
    the settings page only at its own keys, none of them a name that
    [Object.prototype] defines. *)
Inductive outcome (A : Type) :=
| Ok (a : A)
| Throw (e : exn)
| Native (member : builtin).
Arguments Ok {A} a.
Arguments Throw {A} e.
Arguments Native {A} member.

(** What the store does to its surroundings, in the order it does it. *)
Inductive event :=
| Log (message scope : string)
| WriteFile (path : string) (contents : file_text)
| SetLoginItemSettings (openAtLogin : jsval)
| UpdateTime (arg : jsval).

Record World := {
  userData : string;                 (* app.getPath('userData') *)
  files : gmap string file_text;     (* the file system, by path *)
  encryption_available : bool;       (* safeStorage.isEncryptionAvailable() *)
  entropy : nat;                     (* state of the random generator *)
  trace : list event
}.

(** Asynchronous functions are awaited at each call, so the embedding is
    sequential: a computation maps the world to a result, or an exception,
    and the world it leaves. *)
Definition M (A : Type) : Type := World -> outcome A * World.

#[global] Instance M_ret : MRet M := fun A a w => (Ok a, w).
#[global] Instance M_bind : MBind M := fun A B f m w =>
  match m w with
  | (Ok a, w') => f a w'
  | (Throw e, w') => (Throw e, w')
  | (Native member, w') => (Native member, w')
  end.

Definition throw {A} (e : exn) : M A := fun w => (Throw e, w).

(** [return value], of what a property read gave. *)
Definition return_ (value : property jsval) : M jsval :=
  match value with
  | Own v => mret v
  | Inherited member => fun w => (Native member, w)
  | Undefined => mret JUndefined
  end.

Definition record_event (e : event) (w : World) : World :=
  {| userData := userData w;
     files := files w;
     encryption_available := encryption_available w;
     entropy := entropy w;
     trace := trace w ++ [e] |}.

Definition put_file (path : string) (contents : file_text) (w : World)
  : World :=
  {| userData := userData w;
     files := <[path := contents]> (files w);
     encryption_available := encryption_available w;
     entropy := entropy w;
     trace := trace w |}.

(** The world after a draw from the random generator. *)
Definition draw (w : World) : World :=
  {| userData := userData w;
     files := files w;
     encryption_available := encryption_available w;
     entropy := S (entropy w);
     trace := trace w |}.

Definition emit (e : event) : M unit := fun w => (Ok tt, record_event e w).

(** Modelled from the spec: [log] of utils.js, which is not in the sources;
    it emits the message with its scope and nothing else. *)
Definition log (message scope : string) : M unit := emit (Log message scope).

Definition app_getPath_userData : M string := fun w => (Ok (userData w), w).

(** [path.join(directory, name)] *)
Definition path_join (directory name : string) : string :=
  directory ++ "/" ++ name.

Definition fs_existsSync (path : string) : M bool := fun w =>
  (Ok (match files w !! path with Some _ => true | None => false end), w).

Definition fs_writeFileSync (path : string) (contents : file_text) : M unit :=
  fun w => (Ok tt, record_event (WriteFile path contents)
                     (put_file path contents w)).

Definition fs_readFileSync (path : string) : M file_text := fun w =>
  match files w !! path with
  | Some contents => (Ok contents, w)
  | None => (Throw ENOENT, w)
  end.

(** [JSON.stringify(storage, null, 2)] *)
Definition JSON_stringify (storage : document) : file_text := JsonText storage.

(** [JSON.parse(text)]; [None] when it throws. Reading back what
    [JSON.stringify] wrote gives the document as JSON keeps it. *)
Definition JSON_parse (text : file_text) : option document :=
  match text with
  | JsonText d => Some (jsonify_document d)
  | Malformed => None
  end.

(** Modelled from the spec: [safeParse] of utils.js, which is not in the
    sources; it is [JSON.parse] with the empty value ([None], for [null])
    in place of the exception on a malformed text. *)
Definition safeParse (json : file_text) : option document := JSON_parse json.

(** The capabilities of the platform the store is given. *)
Class Platform := {
  (* safeStorage.encryptString *)
  encryptString : string -> list byte;
  (* safeStorage.decryptString; None when it throws *)
  decryptString : list byte -> option string;
  (* Buffer.from(v, 'hex') for an array or an object v; None when it throws
     its TypeError *)
  Buffer_from_object : jsval -> option (list byte);
  (* random(len) of utils.js, from the state of the generator *)
  random_string : nat -> nat -> string;
  (* String(n) for a number n: the decimal numeral of a safe integer, the
     exponent form from 1e21 *)
  Number_toString : Z -> string
}.

(** ** The store *)

Section Storage.
Context `{Platform}.

(** [String(value)]; [None] when it throws its [TypeError]. The elements
    of an array are joined by commas, with [null] and [undefined] left
    empty; an object is printed by the [toString] it inherits, and has no
    string form when an own property, which is no function, hides it. *)
Fixpoint String_ (v : jsval) : option string :=
  match v with
  | JUndefined => Some "undefined"
  | JNull => Some "null"
  | JBool true => Some "true"
  | JBool false => Some "false"
  | JNum n => Some (Number_toString n)
  | JStr s => Some s
  | JArr items =>
      join "," <$> mapM (fun x => match x with
                                  | JUndefined | JNull => Some ""
                                  | _ => String_ x
                                  end) items
  | JObj props =>
      match props !! "toString" with
      | Some _ => None
      | None => Some "[object Object]"
      end
  end.

Definition isEncryptionAvailable : M bool := fun w =>
  (Ok (encryption_available w), w).

(** [Buffer.from(value, 'hex')]: the bytes of a hex string; a [TypeError]
    for a function, for [Object.prototype] and for a value that is neither
    a string, an array nor an object. *)
Definition Buffer_from (value : property jsval) : M (list byte) :=
  match value with
  | Own (JStr s) => mret (Buffer_from_hex s)
  | Own (JArr _ as v) | Own (JObj _ as v) =>
      match Buffer_from_object v with
      | Some buffer => mret buffer
      | None => throw TypeError
      end
  | _ => throw TypeError
  end.

Definition safeStorage_decryptString (buffer : list byte) : M string :=
  match decryptString buffer with
  | Some s => mret s
  | None => throw DecryptError
  end.

(** Modelled from the spec: [random] of utils.js, which is not in the
    sources; a string of [len] characters from the random generator. *)
Definition random (len : nat) : M string := fun w =>
  (Ok (random_string len (entropy w)), draw w).

Definition app_setLoginItemSettings (openAtLogin : jsval) : M unit :=
  emit (SetLoginItemSettings openAtLogin).

(** Modelled from the spec: [updateTime] of server.js, which is not in the
    sources; a side effect outside the store. *)
Definition updateTime (value : jsval) : M unit := emit (UpdateTime value).

(** The own properties of the table of handlers. *)
Definition storageValueHandlers : gmap string (jsval -> M unit) :=
  <["launchOnStartup" := fun value => app_setLoginItemSettings value]>
  (<["timeFormat" := updateTime]>
  (<["dateFormat" := updateTime]> ∅)).

(** [member(argument)] for a member of [Object.prototype] taken off its
    object, so that [this] is [undefined]: [Object.prototype] is not a
    function; [Object] and [toString] return; [isPrototypeOf] returns for
    an argument that is not an object; every other member needs [this] and
    throws. *)
Definition call (member : builtin) (argument : jsval) : M unit :=
  match member with
  | ObjectConstructor | ToString => mret tt
  | IsPrototypeOf =>
      match argument with
      | JArr _ | JObj _ => throw TypeError
      | _ => mret tt
      end
  | _ => throw TypeError
  end.

Definition getStoragePath : M string :=
  userDataPath ← app_getPath_userData;
  let storagePath := path_join userDataPath "storage.json" in
  found ← fs_existsSync storagePath;
  (if negb found then fs_writeFileSync storagePath empty_object_text
   else mret tt);;
  mret storagePath.

Definition getStorage : M document :=
  storagePath ← getStoragePath;
  storage ← fs_readFileSync storagePath;
  mret (default ∅ (safeParse storage)).

Definition writeStorage (storage : document) : M unit :=
  storagePath ← getStoragePath;
  fs_writeFileSync storagePath (JSON_stringify storage).

Definition getStorageValue (key : string) (secure : bool) : M jsval :=
  log ("Getting value for key: " ++ key) "Storage";;
  storage ← getStorage;
  let value := get_property storage key in
  if property_is_undefined value then mret JNull else
  if secure then
    available ← isEncryptionAvailable;
    if negb available then
      log "WARNING: Encryption is not available, returning value as is."
          "Storage";;
      return_ value
    else
      buffer ← Buffer_from value;
      plain ← safeStorage_decryptString buffer;
      mret (JStr plain)
  else return_ value.

Definition setStorageValue (key : string) (value : jsval) (secure : bool)
  : M unit :=
  log ("Setting value for key: " ++ key) "Storage";;
  value ← (if secure then
             available ← isEncryptionAvailable;
             if negb available then
               log "WARNING: Encryption is not available, storing value as is."
                   "Storage";;
               mret value
             else
               match String_ value with
               | Some plain => mret (JStr (toString_hex (encryptString plain)))
               | None => throw TypeError
               end
           else mret value);
  storage ← getStorage;
  let storage := set_property storage key value in
  writeStorage storage;;
  match get_property storageValueHandlers key with
  | Own handler =>
      log ("Running handler for key: " ++ key) "Storage";;
      handler value
  | Inherited member =>
      log ("Running handler for key: " ++ key) "Storage";;
      call member value
  | Undefined => mret tt
  end.

Definition getSocketPassword : M jsval :=
  socketPassword ← getStorageValue "socketPassword" true;
  if negb (truthy socketPassword) then
    fresh ← random 64;
    setStorageValue "socketPassword" (JStr fresh) true;;
    mret (JStr fresh)
  else mret socketPassword.

Definition getSpotifyDc : M jsval := getStorageValue "sp_dc" true.

Definition setSpotifyDc (dc : string) : M unit :=
  setStorageValue "sp_dc" (JStr dc) true.

End Storage.

(** ** Observing a run *)

(** The events a computation adds to the trace. *)
Definition new_events {A} (m : M A) (w : World) : list event :=
  drop (length (trace w)) (trace (m w).2).

Definition is_handler_event (e : event) : bool :=
  match e with
  | SetLoginItemSettings _ | UpdateTime _ => true
  | _ => false
  end.

Definition is_log (e : event) : bool :=
  match e with Log _ _ => true | _ => false end.

Definition storage_path (w : World) : string :=
  path_join (userData w) "storage.json".

(** [storage.json], when it exists. *)
Definition storage_json (w : World) : option file_text :=
  files w !! storage_path w.

(** The document a read of the file gives: [getStorage] without its
    effects. *)
Definition stored_document (w : World) : document :=
  match storage_json w with
  | Some text => default ∅ (safeParse text)
  | None => ∅
  end.

(** The events of [getStoragePath]: the file is created when missing. *)
Definition seed_events (w : World) : list event :=
  match storage_json w with
  | Some _ => []
  | None => [WriteFile (storage_path w) (JsonText ∅)]
  end.

Definition seeded_file (w : World) : file_text :=
  default (JsonText ∅) (storage_json w).

(** The world with [storage.json] holding a text and more events. *)
Definition update_world (text : file_text) (events : list event) (w : World)
  : World :=
  {| userData := userData w;
     files := <[storage_path w := text]> (files w);
     encryption_available := encryption_available w;
     entropy := entropy w;
     trace := trace w ++ events |}.

(** The effect of the handler registered for a key. *)
Definition handler_event (key : string) : option (jsval -> event) :=
  if decide (key = "launchOnStartup") then Some SetLoginItemSettings
  else if decide (key = "timeFormat") then Some UpdateTime
  else if decide (key = "dateFormat") then Some UpdateTime
  else None.

Section Observations.
Context `{Platform}.

(** [Buffer.from(value, 'hex')] without the world; [None] for its
    [TypeError]. *)
Definition buffer_of (value : jsval) : option (list byte) :=
  match value with
  | JStr s => Some (Buffer_from_hex s)
  | JArr _ | JObj _ => Buffer_from_object value
  | _ => None
  end.

(** What [getStorageValue] returns, from the document on disk. *)
Definition read_result (key : string) (secure : bool) (w : World)
  : outcome jsval :=
  match get_property (stored_document w) key with
  | Undefined => Ok JNull
  | Own value =>
      if secure && encryption_available w then
        match buffer_of value with
        | Some buffer =>
            match decryptString buffer with
            | Some plain => Ok (JStr plain)
            | None => Throw DecryptError
            end
        | None => Throw TypeError
        end
      else Ok value
  | Inherited member =>
      if secure && encryption_available w then Throw TypeError
      else Native member
  end.

Definition read_events (key : string) (secure : bool) (w : World)
  : list event :=
  [Log ("Getting value for key: " ++ key) "Storage"] ++ seed_events w ++
  match get_property (stored_document w) key with
  | Undefined => []
  | _ =>
      if secure && negb (encryption_available w) then
        [Log "WARNING: Encryption is not available, returning value as is."
             "Storage"]
      else []
  end.

(** The value [setStorageValue] puts in the document: the hex form of the
    ciphertext of [String(value)], or the value as it is given. Where
    [String(value)] throws the set stops before it reads the document, and
    the definition stands for nothing. *)
Definition stored_representation (secure : bool) (w : World) (value : jsval)
  : jsval :=
  if secure && encryption_available w
  then match String_ value with
       | Some plain => JStr (toString_hex (encryptString plain))
       | None => JUndefined
       end
  else value.

(** The same, when [String(value)] returns. *)
Definition encoded (secure : bool) (w : World) (value : jsval)
  : option jsval :=
  if secure && encryption_available w
  then plain ← String_ value;
       Some (JStr (toString_hex (encryptString plain)))
  else Some value.

(** [String(value)] returns, where [setStorageValue] calls it. *)
Definition has_representation (secure : bool) (w : World) (value : jsval)
  : Prop :=
  secure && encryption_available w = true -> is_Some (String_ value).

(** What the call of an inherited member as a handler comes to. *)
Definition call_result (member : builtin) (argument : jsval) : outcome unit :=
  match member with
  | ObjectConstructor | ToString => Ok tt
  | IsPrototypeOf =>
      match argument with
      | JArr _ | JObj _ => Throw TypeError
      | _ => Ok tt
      end
  | _ => Throw TypeError
  end.

(** What [setStorageValue] returns once the document is written. *)
Definition dispatch_result (key : string) (stored : jsval) : outcome unit :=
  match handler_event key, inherited key with
  | None, Some member => call_result member stored
  | _, _ => Ok tt
  end.

Definition dispatch_events (key : string) (stored : jsval) : list event :=
  match handler_event key, inherited key with
  | Some effect, _ =>
      [Log ("Running handler for key: " ++ key) "Storage"; effect stored]
  | None, Some _ => [Log ("Running handler for key: " ++ key) "Storage"]
  | None, None => []
  end.

(** The events of a set that gets to the document, [stored] being what it
    puts there. *)
Definition write_events (key : string) (stored : jsval) (secure : bool)
  (w : World) : list event :=
  [Log ("Setting value for key: " ++ key) "Storage"] ++
  (if secure && negb (encryption_available w)
   then [Log "WARNING: Encryption is not available, storing value as is."
             "Storage"]
   else []) ++
  seed_events w ++
  [WriteFile (storage_path w)
     (JSON_stringify (set_property (stored_document w) key stored))] ++
  dispatch_events key stored.


(** The platform returns what it encrypted. *)
Definition cipher_round_trip : Prop :=
  forall s, decryptString (encryptString s) = Some s.

(** A ciphertext is longer than its plaintext (a tag, padding). *)
Definition ciphertext_longer : Prop :=
  forall s, String.length s < length (encryptString s).


End Observations.

Definition is_write (e : event) : bool :=
  match e with WriteFile _ _ => true | _ => false end.

(** ** The settings page: [src/renderer/src/pages/Settings/Settings.tsx] *)

(** [value === true] *)
Definition is_true (value : jsval) : bool :=
  match value with JBool true => true | _ => false end.

(** [value || fallback] *)
Definition or_else (value fallback : jsval) : jsval :=
  if truthy value then value else fallback.

(** What the startup tab keeps in [settings.current]. *)
Record StartupSettings := {
  launchOnStartup : bool;
  launchMinimized : bool
}.

(** What the client tab keeps in [settings.current]; the casts [as string]
    check nothing, so the fields are values. *)
Record ClientSettings := {
  timeFormat : jsval;
  dateFormat : jsval
}.

(** The state the about tab works on: its click counter and the developer
    mode of the context. *)
Record AboutState := {
  timesClicked : nat;
  devMode : bool
}.

Section SettingsPage.
Context `{Platform}.

(** Modelled from the spec: [window.api.getStorageValue] of the preload
    script, which is not in the sources; the request goes to the store, and
    [secure], which the page never passes, takes its default. *)
Definition api_getStorageValue (key : string) : M jsval :=
  getStorageValue key false.

(** Modelled from the spec: [window.api.setStorageValue] of the preload
    script, which is not in the sources; the request goes to the store, and
    [secure], which the page never passes, takes its default. *)
Definition api_setStorageValue (key : string) (value : jsval) : M unit :=
  setStorageValue key value false.

(** [loadSettings] of [GeneralTab]: the field [installAutomatically]. *)
Definition GeneralTab_loadSettings : M bool :=
  installAutomatically ← api_getStorageValue "installAutomatically";
  mret (is_true installAutomatically).

(** The [onChange] of the switch "Install Automatically". *)
Definition GeneralTab_onChange_installAutomatically (value : bool) : M unit :=
  api_setStorageValue "installAutomatically" (JBool value).

(** [loadSettings] of [ClientTab]. *)
Definition ClientTab_loadSettings : M ClientSettings :=
  time ← api_getStorageValue "timeFormat";
  date ← api_getStorageValue "dateFormat";
  mret {| timeFormat := or_else time (JStr "HH:mm");
          dateFormat := or_else date (JStr "ddd, D MMM") |}.

Definition handleTimeFormatChange (value : string) : M unit :=
  api_setStorageValue "timeFormat" (JStr value).

Definition handleDateFormatChange (value : string) : M unit :=
  api_setStorageValue "dateFormat" (JStr value).

(** [loadSettings] of [StartupTab]. *)
Definition StartupTab_loadSettings : M StartupSettings :=
  onStartup ← api_getStorageValue "launchOnStartup";
  minimized ← api_getStorageValue "launchMinimized";
  mret {| launchOnStartup := is_true onStartup;
          launchMinimized := is_true minimized |}.

(** The [onChange] of the switch "Launch on startup". *)
Definition StartupTab_onChange_launchOnStartup (value : bool) : M unit :=
  api_setStorageValue "launchOnStartup" (JBool value).

(** The [onChange] of the switch "Launch minimized". *)
Definition StartupTab_onChange_launchMinimized (value : bool) : M unit :=
  api_setStorageValue "launchMinimized" (JBool value).

(** [loadSettings] of [AdvancedTab]: the field [disableSocketAuth]. *)
Definition AdvancedTab_loadSettings : M bool :=
  disableSocketAuth ← api_getStorageValue "disableSocketAuth";
  mret (is_true disableSocketAuth).

(** The [onChange] of the switch "Disable WebSocket Authentication". *)
Definition AdvancedTab_onChange_disableSocketAuth (value : bool) : M unit :=
  api_setStorageValue "disableSocketAuth" (JBool value).

End SettingsPage.

(** The effect of [AboutTab] that depends on [timesClicked]. *)
Definition AboutTab_effect (s : AboutState) : AboutState :=
  if (timesClicked s <=? 0)%nat then s
  else if devMode s then s
  else if (5 <=? timesClicked s)%nat
       then {| timesClicked := timesClicked s; devMode := true |}
       else s.

(** A click on the version: the counter goes up by one and, the counter
    having changed, the effect runs after the render. *)
Definition AboutTab_onClick (s : AboutState) : AboutState :=
  AboutTab_effect {| timesClicked := timesClicked s + 1;
                     devMode := devMode s |}.

(** ** A test platform *)

(** A stand-in for the platform: a cipher that tags and reverses the bytes,
    a generator that repeats one letter. *)
Module TestPlatform.

Definition encrypt (s : string) : list byte :=
  x76 :: rev (String.list_byte_of_string s).

Definition decrypt (buffer : list byte) : option string :=
  match buffer with
  | x76 :: body => Some (String.string_of_list_byte (rev body))
  | _ => None
  end.

Definition letters (len seed : nat) : string :=
  String.string_of_list_ascii
    (repeat (ascii_of_nat (65 + seed mod 26)) len).

Definition platform : Platform :=
  {| encryptString := encrypt;
     decryptString := decrypt;
     Buffer_from_object := fun _ => None;
     random_string := letters;
     Number_toString := fun n => NilZero.string_of_int (Z.to_int n) |}.

Definition directory : string := "/home/user/.config/glancething".

(** A world with, at most, the file [storage.json]. *)
Definition world (file : option file_text) (available : bool) : World :=
  {| userData := directory;
     files := match file with
              | Some text => {[ path_join directory "storage.json" := text ]}
              | None => ∅
              end;
     encryption_available := available;
     entropy := 0;
     trace := [] |}.

End TestPlatform.

(** ** Values: induction, JSON normal forms *)

Lemma jsval_size_item (items : list jsval) x :
  x ∈ items -> jsval_size x < jsval_size (JArr items).
Proof.
  induction 1 as [x rest | x y rest _ IH]; cbn in *; lia.
Qed.

Lemma jsval_size_prop (props : gmap string jsval) k x :
  props !! k = Some x -> jsval_size x < jsval_size (JObj props).
Proof.
  intros Hk. cbn.
  rewrite (map_fold_delete_L _ _ k x props); [lia | intros; lia | done].
Qed.

(** Induction on a value, with the property in hand for the elements of an
    array and the properties of an object. *)
Lemma jsval_ind_nested (P : jsval -> Prop) :
  P JUndefined -> P JNull -> (forall b, P (JBool b)) ->
  (forall n, P (JNum n)) -> (forall s, P (JStr s)) ->
  (forall items, Forall P items -> P (JArr items)) ->
  (forall props, map_Forall (fun _ => P) props -> P (JObj props)) ->
  forall v, P v.
Proof.
  intros Hu Hn Hb Hz Hs Ha Ho v.
  remember (jsval_size v) as size eqn:Hsize. revert v Hsize.
  induction size as [size IH] using lt_wf_ind. intros v ->.
  destruct v; auto.
  - apply Ha, Forall_forall. intros x Hx.
    apply (IH (jsval_size x)); [by apply jsval_size_item | done].
  - apply Ho. intros k x Hx.
    apply (IH (jsval_size x)); [by eapply jsval_size_prop | done].
Qed.

Lemma jsonify_defined v : v <> JUndefined -> jsonify v <> JUndefined.
Proof. by destruct v. Qed.

Lemma jsonify_property_Some x y :
  jsonify_property x = Some y <-> x <> JUndefined /\ y = jsonify x.
Proof.
  destruct x; cbn; split; try (intros [=]; subst; done);
    intros [? ?]; congruence.
Qed.

Lemma undefined_or_defined v : v = JUndefined \/ v <> JUndefined.
Proof. destruct v; auto. Qed.

Lemma lookup_jsonify_document (d : document) k :
  jsonify_document d !! k = d !! k ≫= jsonify_property.
Proof. apply lookup_omap. Qed.

Lemma jsonify_arr items : jsonify (JArr items) = JArr (map jsonify_item items).
Proof. reflexivity. Qed.

Lemma jsonify_obj props : jsonify (JObj props) = JObj (jsonify_document props).
Proof. reflexivity. Qed.

Lemma jsonify_item_defined x : x <> JUndefined -> jsonify_item x = jsonify x.
Proof. by destruct x. Qed.

(** A JSON-representable value goes through [JSON.stringify] and
    [JSON.parse] unchanged. *)
Lemma jsonify_representable v : json_representable v -> jsonify v = v.
Proof.
  induction 1 as [| | | | items Hitems IH | props Hprops IH]; try done.
  - rewrite jsonify_arr. f_equal.
    apply list_eq. intros i. rewrite list_lookup_fmap.
    destruct (items !! i) as [x|] eqn:Hi; [cbn; f_equal | done].
    rewrite jsonify_item_defined; [by eapply IH |].
    specialize (Hitems i x Hi). by destruct Hitems.
  - rewrite jsonify_obj. f_equal.
    apply map_eq. intros k. rewrite lookup_jsonify_document.
    destruct (props !! k) as [x|] eqn:Hk; [cbn | done].
    apply jsonify_property_Some. split; [| symmetry; by eapply IH].
    specialize (Hprops k x Hk). by destruct Hprops.
Qed.

(** What [JSON.parse] returns is JSON-representable. *)
Lemma jsonify_is_json v : v <> JUndefined -> json_representable (jsonify v).
Proof.
  induction v as [| | b | n | s | items IH | props IH] using jsval_ind_nested;
    intros Hv; try done; try (by constructor).
  - rewrite jsonify_arr. constructor. intros i y. rewrite list_lookup_fmap.
    destruct (items !! i) as [x|] eqn:Hi; [cbn | done].
    intros [= <-]. rewrite Forall_lookup in IH. specialize (IH i x Hi).
    destruct (undefined_or_defined x) as [->|Hx]; [constructor |].
    rewrite jsonify_item_defined; auto.
  - rewrite jsonify_obj. constructor. intros k y.
    rewrite lookup_jsonify_document.
    destruct (props !! k) as [x|] eqn:Hk; [cbn | done].
    intros [Hx ->]%jsonify_property_Some. by apply (IH k x Hk).
Qed.

Lemma jsonify_idempotent v : jsonify (jsonify v) = jsonify v.
Proof.
  destruct (undefined_or_defined v) as [->|Hv]; [done |].
  by apply jsonify_representable, jsonify_is_json.
Qed.

Lemma jsonify_document_empty : jsonify_document ∅ = ∅.
Proof. apply omap_empty. Qed.

Lemma jsonify_document_defined (d : document) k :
  jsonify_document d !! k <> Some JUndefined.
Proof.
  rewrite lookup_jsonify_document. destruct (d !! k) as [x|]; [cbn | done].
  intros [Hx Hy]%jsonify_property_Some. by apply (jsonify_defined x).
Qed.

Lemma jsonify_document_idempotent d :
  jsonify_document (jsonify_document d) = jsonify_document d.
Proof.
  apply map_eq. intros k. rewrite !lookup_jsonify_document.
  destruct (d !! k) as [x|]; [cbn | done].
  destruct (jsonify_property x) as [y|] eqn:Hy; [cbn | done].
  apply jsonify_property_Some in Hy as [Hx ->].
  apply jsonify_property_Some. split; [by apply jsonify_defined |].
  by rewrite jsonify_idempotent.
Qed.

(** ** Hex strings *)

Lemma hex_byte_round_trip b :
  match hex_value (hex_digit (Byte.to_N b / 16)),
        hex_value (hex_digit (Byte.to_N b mod 16)) with
  | Some hi, Some lo => Byte.of_N (hi * 16 + lo)
  | _, _ => None
  end = Some b.
Proof. destruct b; vm_compute; reflexivity. Qed.

Lemma Buffer_from_toString_hex buffer :
  Buffer_from_hex (toString_hex buffer) = buffer.
Proof.
  induction buffer as [|b rest IH]; [done |].
  cbn [toString_hex Buffer_from_hex].
  pose proof (hex_byte_round_trip b) as Hb.
  destruct (hex_value (hex_digit (Byte.to_N b / 16))) as [hi|]; [| done].
  destruct (hex_value (hex_digit (Byte.to_N b mod 16))) as [lo|]; [| done].
  by rewrite Hb, IH.
Qed.

Lemma toString_hex_length buffer :
  String.length (toString_hex buffer) = 2 * length buffer.
Proof. induction buffer as [|b rest IH]; cbn; [done | rewrite IH; lia]. Qed.

(** ** The definitions on small inputs *)

Example String_of_array :
  String_ (H := TestPlatform.platform)
    (JArr [JNum 1; JNull; JStr "a"; JArr [JBool true; JUndefined];
           JObj ∅; JNum (-42)])
  = Some "1,,a,true,,[object Object],-42".
Proof. reflexivity. Qed.

Example String_of_hidden_toString :
  String_ (H := TestPlatform.platform)
    (JArr [JNum 1; JObj {[ "toString" := JNum 5 ]}]) = None.
Proof. vm_compute. reflexivity. Qed.

Example toString_hex_of_bytes : toString_hex [x00; xff; x1a] = "00ff1a".
Proof. reflexivity. Qed.

Example Buffer_from_hex_any_case : Buffer_from_hex "00FF1a" = [x00; xff; x1a].
Proof. reflexivity. Qed.

Example Buffer_from_hex_stops_at_bad_pair : Buffer_from_hex "1ag0ff" = [x1a].
Proof. reflexivity. Qed.

Example jsonify_leaves_undefined_out :
  jsonify (JObj {[ "a" := JUndefined ]}) = JObj ∅ /\
  jsonify (JArr [JUndefined; JNum 3]) = JArr [JNull; JNum 3].
Proof. split; vm_compute; reflexivity. Qed.

(** A first set on an empty directory: the file is created, written, and
    the handler of the key is run. *)
Example set_on_test_platform :
  new_events
    (setStorageValue (H := TestPlatform.platform) "timeFormat" (JStr "HH:mm")
       false)
    (TestPlatform.world None true)
  = [Log "Setting value for key: timeFormat" "Storage";
     WriteFile (path_join TestPlatform.directory "storage.json")
       (JsonText ∅);
     WriteFile (path_join TestPlatform.directory "storage.json")
       (JsonText {[ "timeFormat" := JStr "HH:mm" ]});
     Log "Running handler for key: timeFormat" "Storage";
     UpdateTime (JStr "HH:mm")].
Proof. vm_compute. reflexivity. Qed.

Example secure_set_on_test_platform :
  stored_document
    (setStorageValue (H := TestPlatform.platform) "sp_dc" (JStr "abc") true
       (TestPlatform.world None true)).2 !! "sp_dc"
  = Some (JStr "76636261").
Proof. vm_compute. reflexivity. Qed.

Example socket_password_on_test_platform :
  (getSocketPassword (H := TestPlatform.platform)
     (TestPlatform.world (Some Malformed) false)).1
  = Ok (JStr (TestPlatform.letters 64 0)).
Proof. vm_compute. reflexivity. Qed.

Example get_of_inherited_name :
  (getStorageValue (H := TestPlatform.platform) "toString" false
     (TestPlatform.world None true)).1 = Native ToString /\
  (getStorageValue (H := TestPlatform.platform) "toString" true
     (TestPlatform.world None true)).1 = Throw TypeError.
Proof. split; vm_compute; reflexivity. Qed.

Example set_of_proto :
  (setStorageValue (H := TestPlatform.platform) "__proto__" (JStr "x") false
     (TestPlatform.world None true)).1 = Throw TypeError /\
  new_events
    (setStorageValue (H := TestPlatform.platform) "__proto__" (JStr "x") false)
    (TestPlatform.world None true)
  = [Log "Setting value for key: __proto__" "Storage";
     WriteFile (path_join TestPlatform.directory "storage.json")
       (JsonText ∅);
     WriteFile (path_join TestPlatform.directory "storage.json")
       (JsonText ∅);
     Log "Running handler for key: __proto__" "Storage"].
Proof. split; vm_compute; reflexivity. Qed.

Example set_of_inherited_function :
  (setStorageValue (H := TestPlatform.platform) "toString" (JStr "x") false
     (TestPlatform.world None true)).1 = Ok tt /\
  (setStorageValue (H := TestPlatform.platform) "valueOf" (JStr "x") false
     (TestPlatform.world None true)).1 = Throw TypeError /\
  stored_document
    (setStorageValue (H := TestPlatform.platform) "valueOf" (JStr "x") false
       (TestPlatform.world None true)).2 !! "valueOf" = Some (JStr "x").
Proof. repeat split; vm_compute; reflexivity. Qed.

(** ** Running the store *)

Section Properties.
Context `{Platform}.

Lemma bind_run {A B} (m : M A) (f : A -> M B) w :
  (m ≫= f) w =
  match m w with
  | (Ok a, w') => f a w'
  | (Throw e, w') => (Throw e, w')
  | (Native member, w') => (Native member, w')
  end.
Proof. reflexivity. Qed.

(** *** Worlds *)

Lemma files_update_world text events w :
  files (update_world text events w) !! storage_path w = Some text.
Proof. apply lookup_insert_eq. Qed.

Lemma storage_json_update_world text events w :
  storage_json (update_world text events w) = Some text.
Proof. apply lookup_insert_eq. Qed.

Lemma stored_document_update_world text events w :
  stored_document (update_world text events w) = default ∅ (safeParse text).
Proof. unfold stored_document. by rewrite storage_json_update_world. Qed.

Lemma update_world_update_world text text' events events' w :
  update_world text' events' (update_world text events w) =
  update_world text' (events ++ events') w.
Proof.
  unfold update_world, storage_path. cbn.
  by rewrite insert_insert_eq, app_assoc.
Qed.

Lemma seeded_file_update_world text events w :
  seeded_file (update_world text events w) = text.
Proof. unfold seeded_file. by rewrite storage_json_update_world. Qed.

Lemma seed_events_update_world text events w :
  seed_events (update_world text events w) = [].
Proof. unfold seed_events. by rewrite storage_json_update_world. Qed.

Lemma stored_document_seeded w :
  default ∅ (safeParse (seeded_file w)) = stored_document w.
Proof.
  unfold seeded_file, stored_document.
  destruct (storage_json w); [done |]. apply jsonify_document_empty.
Qed.

Lemma stored_document_defined w key :
  stored_document w !! key <> Some JUndefined.
Proof.
  unfold stored_document.
  destruct (storage_json w) as [[d|]|]; cbn; try by rewrite lookup_empty.
  apply jsonify_document_defined.
Qed.

Lemma stored_document_json w :
  jsonify_document (stored_document w) = stored_document w.
Proof.
  unfold stored_document.
  destruct (storage_json w) as [[d|]|]; cbn;
    auto using jsonify_document_idempotent, jsonify_document_empty.
Qed.

Lemma stored_document_lookup_json w key v :
  stored_document w !! key = Some v -> jsonify_property v = Some v.
Proof.
  rewrite <- stored_document_json, lookup_jsonify_document.
  destruct (stored_document w !! key) as [x|]; [cbn | done].
  intros Hv. pose proof Hv as [Hx ->]%jsonify_property_Some.
  apply jsonify_property_Some. split; [by apply jsonify_defined |].
  by rewrite jsonify_idempotent.
Qed.

(** *** The functions of the store, run *)

Ltac run :=
  unfold update_world, record_event, put_file, mbind, M_bind, mret, M_ret;
  cbn; rewrite <- ?app_assoc, ?app_nil_r; cbn.

Lemma getStoragePath_run w :
  getStoragePath w =
  (Ok (storage_path w), update_world (seeded_file w) (seed_events w) w).
Proof.
  destruct w as [dir fsys available seed events].
  unfold getStoragePath, app_getPath_userData, fs_existsSync,
    fs_writeFileSync, seed_events, seeded_file, storage_json, storage_path.
  run. destruct (fsys !! path_join dir "storage.json") as [text|] eqn:Hfile;
    run; [| done].
  by rewrite insert_id.
Qed.

Lemma getStorage_run w :
  getStorage w =
  (Ok (stored_document w), update_world (seeded_file w) (seed_events w) w).
Proof.
  unfold getStorage. rewrite bind_run, getStoragePath_run.
  rewrite bind_run. unfold fs_readFileSync.
  rewrite files_update_world. cbn. by rewrite stored_document_seeded.
Qed.

Lemma writeStorage_run storage w :
  writeStorage storage w =
  (Ok tt,
   update_world (JSON_stringify storage)
     (seed_events w ++ [WriteFile (storage_path w) (JSON_stringify storage)])
     w).
Proof.
  unfold writeStorage. rewrite bind_run, getStoragePath_run.
  unfold fs_writeFileSync.
  rewrite <- (update_world_update_world (seeded_file w)).
  reflexivity.
Qed.
Lemma update_world_record_event text events e w :
  update_world text events (record_event e w) =
  update_world text (e :: events) w.
Proof. by run. Qed.

Lemma record_event_update_world text events e w :
  record_event e (update_world text events w) =
  update_world text (events ++ [e]) w.
Proof. by run. Qed.

Lemma handler_event_not_inherited key effect :
  handler_event key = Some effect -> inherited key = None.
Proof.
  unfold handler_event. repeat case_decide; intros; by simplify_eq.
Qed.

Lemma storageValueHandlers_lookup key :
  storageValueHandlers !! key =
  (fun e value => emit (e value)) <$> handler_event key.
Proof.
  unfold storageValueHandlers, handler_event.
  rewrite !lookup_insert, lookup_empty.
  repeat case_decide; by simplify_eq.
Qed.

Lemma handler_lookup key :
  get_property storageValueHandlers key =
  match handler_event key, inherited key with
  | Some effect, _ => Own (fun value => emit (effect value))
  | None, Some member => Inherited member
  | None, None => Undefined
  end.
Proof.
  unfold get_property. rewrite storageValueHandlers_lookup.
  destruct (handler_event key); [done |]. by destruct (inherited key).
Qed.

Lemma call_run member argument w :
  call member argument w = (call_result member argument, w).
Proof. destruct member; try done. by destruct argument. Qed.

Lemma call_result_cases member argument :
  call_result member argument = Ok tt \/
  call_result member argument = Throw TypeError.
Proof. destruct member; auto. destruct argument; auto. Qed.

Lemma get_property_ordinary {A} (object : gmap string A) key :
  inherited key = None ->
  get_property object key =
  match object !! key with Some a => Own a | None => Undefined end.
Proof. unfold get_property. by intros ->. Qed.

Lemma set_property_ordinary {A} (object : gmap string A) key value :
  inherited key = None ->
  set_property object key value = <[key := value]> object.
Proof. unfold set_property. intros ->. by destruct (object !! key). Qed.

Lemma set_property_ne {A} (object : gmap string A) key key' value :
  key' <> key -> set_property object key value !! key' = object !! key'.
Proof.
  intros Hne. unfold set_property.
  destruct (object !! key), (inherited key) as [[]|];
    by rewrite ?lookup_insert_ne.
Qed.

Lemma encoded_representation secure w value stored :
  encoded secure w value = Some stored ->
  stored = stored_representation secure w value.
Proof.
  unfold encoded, stored_representation.
  destruct (secure && encryption_available w); [| congruence].
  destruct (String_ value); cbn; congruence.
Qed.

Lemma has_representation_encoded secure w value :
  has_representation secure w value ->
  encoded secure w value = Some (stored_representation secure w value).
Proof.
  unfold has_representation, encoded, stored_representation.
  destruct (secure && encryption_available w); [| done].
  intros Hstring. by destruct (Hstring eq_refl) as [plain ->].
Qed.

Lemma getStorageValue_run key secure w :
  getStorageValue key secure w =
  (read_result key secure w,
   update_world (seeded_file w) (read_events key secure w) w).
Proof.
  unfold getStorageValue, read_result, read_events.
  rewrite bind_run. unfold log, emit. rewrite bind_run, getStorage_run.
  rewrite update_world_record_event.
  change (stored_document (record_event _ w)) with (stored_document w).
  change (seeded_file (record_event _ w)) with (seeded_file w).
  change (seed_events (record_event _ w)) with (seed_events w).
  pose proof (stored_document_defined w key) as Hdefined.
  unfold get_property.
  destruct (stored_document w !! key) as [value|]; cbn.
  - destruct (encryption_available w) eqn:Havailable, secure, value;
      try done; unfold isEncryptionAvailable, Buffer_from, buffer_of,
        safeStorage_decryptString, throw; run; rewrite ?Havailable; run;
      repeat case_match; by simplify_eq.
  - destruct (inherited key) as [member|]; cbn; [| by run].
    destruct (encryption_available w) eqn:Havailable, secure;
      unfold isEncryptionAvailable, throw; run; rewrite ?Havailable; by run.
Qed.

Lemma write_and_dispatch_run key stored w :
  (storage ← getStorage;
   writeStorage (set_property storage key stored);;
   match get_property storageValueHandlers key with
   | Own handler =>
       log ("Running handler for key: " ++ key) "Storage";;
       handler stored
   | Inherited member =>
       log ("Running handler for key: " ++ key) "Storage";;
       call member stored
   | Undefined => mret tt
   end) w =
  (dispatch_result key stored,
   update_world
     (JSON_stringify (set_property (stored_document w) key stored))
     (seed_events w ++
      [WriteFile (storage_path w)
         (JSON_stringify (set_property (stored_document w) key stored))] ++
      dispatch_events key stored) w).
Proof.
  rewrite bind_run, getStorage_run.
  rewrite bind_run, writeStorage_run, update_world_update_world.
  rewrite seed_events_update_world.
  change (storage_path (update_world _ _ w)) with (storage_path w).
  rewrite handler_lookup. unfold dispatch_result, dispatch_events.
  destruct (handler_event key) as [effect|];
    [unfold log, emit; by run |].
  destruct (inherited key) as [member|]; [| by run].
  rewrite bind_run. unfold log, emit. rewrite call_run. by run.
Qed.

Lemma encode_run value (secure : bool) w :
  ((if secure then
      available ← isEncryptionAvailable;
      if negb available then
        log "WARNING: Encryption is not available, storing value as is."
            "Storage";;
        mret value
      else
        match String_ value with
        | Some plain => mret (JStr (toString_hex (encryptString plain)))
        | None => throw TypeError
        end
    else mret value) : M jsval) w =
  (match encoded secure w value with
   | Some stored => Ok stored
   | None => Throw TypeError
   end,
   if secure && negb (encryption_available w)
   then record_event
          (Log "WARNING: Encryption is not available, storing value as is."
               "Storage") w
   else w).
Proof.
  unfold encoded, isEncryptionAvailable, log, emit.
  destruct secure; [| done]. rewrite bind_run.
  destruct (encryption_available w); [| done]. cbn.
  by destruct (String_ value).
Qed.

Lemma encoded_quiet secure w value :
  encoded secure w value = None ->
  secure && negb (encryption_available w) = false.
Proof.
  unfold encoded. destruct secure, (encryption_available w); by cbn.
Qed.

(** A set, run: it stops at [String(value)] when that throws; otherwise it
    writes the document and returns what the dispatch returns. *)
Lemma setStorageValue_run key value secure w :
  setStorageValue key value secure w =
  match encoded secure w value with
  | Some stored =>
      (dispatch_result key stored,
       update_world
         (JSON_stringify (set_property (stored_document w) key stored))
         (write_events key stored secure w) w)
  | None =>
      (Throw TypeError,
       record_event (Log ("Setting value for key: " ++ key) "Storage") w)
  end.
Proof.
  unfold setStorageValue, write_events.
  rewrite bind_run. unfold log at 1, emit. cbv beta iota.
  rewrite bind_run, encode_run.
  change (encoded secure (record_event _ w) value)
    with (encoded secure w value).
  change (encryption_available (record_event _ w))
    with (encryption_available w).
  destruct (encoded secure w value) as [stored|] eqn:Hencoded.
  - rewrite write_and_dispatch_run.
    by destruct (secure && negb (encryption_available w));
      rewrite ?update_world_record_event.
  - by rewrite (encoded_quiet _ _ _ Hencoded).
Qed.

(** The same for a name that [Object.prototype] does not define, where
    [String(value)] returns: the key is bound and the set returns. *)
Lemma setStorageValue_ordinary key value secure w :
  inherited key = None ->
  has_representation secure w value ->
  setStorageValue key value secure w =
  (Ok tt,
   update_world
     (JSON_stringify
        (<[key := stored_representation secure w value]> (stored_document w)))
     (write_events key (stored_representation secure w value) secure w) w).
Proof.
  intros Hkey Hvalue.
  rewrite setStorageValue_run, has_representation_encoded by done.
  unfold dispatch_result, write_events.
  rewrite Hkey, set_property_ordinary by done.
  by destruct (handler_event key).
Qed.
Lemma has_representation_plain secure w value :
  secure = false \/ encryption_available w = false ->
  has_representation secure w value.
Proof.
  unfold has_representation. intros [-> | ->]; [done |].
  by rewrite andb_false_r.
Qed.

Lemma has_representation_string secure w s :
  has_representation secure w (JStr s).
Proof. intros _. by eexists. Qed.

Lemma encryption_available_set key value secure w :
  encryption_available (setStorageValue key value secure w).2 =
  encryption_available w.
Proof. rewrite setStorageValue_run. by destruct (encoded secure w value). Qed.

(** The document after a set that got to the write. *)
Lemma stored_document_set key value secure w :
  has_representation secure w value ->
  stored_document (setStorageValue key value secure w).2 =
  jsonify_document
    (set_property (stored_document w) key
       (stored_representation secure w value)).
Proof.
  intros Hvalue.
  rewrite setStorageValue_run, has_representation_encoded by done.
  cbn [snd]. by rewrite stored_document_update_world.
Qed.

(** A set that stops at [String(value)] leaves the document. *)
Lemma stored_document_set_stopped key value secure w :
  encoded secure w value = None ->
  stored_document (setStorageValue key value secure w).2 = stored_document w.
Proof. intros Hstopped. by rewrite setStorageValue_run, Hstopped. Qed.

Lemma stored_document_set_eq key value secure w :
  inherited key = None ->
  has_representation secure w value ->
  stored_document (setStorageValue key value secure w).2 !! key =
  jsonify_property (stored_representation secure w value).
Proof.
  intros Hkey Hvalue.
  rewrite stored_document_set, set_property_ordinary by done.
  by rewrite lookup_jsonify_document, lookup_insert_eq.
Qed.

(** Also for an inherited name, and also when the set throws. *)
Lemma stored_document_set_ne key key' value secure w :
  key' <> key ->
  stored_document (setStorageValue key value secure w).2 !! key' =
  stored_document w !! key'.
Proof.
  intros Hne. rewrite setStorageValue_run.
  destruct (encoded secure w value) as [stored|]; [| done]. cbn [snd].
  rewrite stored_document_update_world. cbn.
  rewrite lookup_jsonify_document, set_property_ne by done.
  destruct (stored_document w !! key') as [x|] eqn:Hx; [cbn | done].
  by eapply stored_document_lookup_json.
Qed.

Lemma set_returns key value secure w :
  inherited key = None ->
  has_representation secure w value ->
  (setStorageValue key value secure w).1 = Ok tt.
Proof. intros Hkey Hvalue. by rewrite setStorageValue_ordinary. Qed.

Lemma set_then_run {A} key value secure (m : M A) w :
  (setStorageValue key value secure w).1 = Ok tt ->
  (setStorageValue key value secure;; m) w =
  m (setStorageValue key value secure w).2.
Proof.
  intros Hreturns. rewrite bind_run.
  destruct (setStorageValue key value secure w) as [[[]| |] w'];
    cbn in *; by simplify_eq.
Qed.

Lemma set_throws_then {A} key value secure (m : M A) w e :
  (setStorageValue key value secure w).1 = Throw e ->
  ((setStorageValue key value secure;; m) w).1 = Throw e.
Proof.
  intros Hthrows. rewrite bind_run.
  destruct (setStorageValue key value secure w) as [[| |] w'];
    cbn in *; by simplify_eq.
Qed.

Lemma set_then_get key value secure secure' w :
  (setStorageValue key value secure w).1 = Ok tt ->
  ((setStorageValue key value secure;; getStorageValue key secure') w).1 =
  read_result key secure' (setStorageValue key value secure w).2.
Proof.
  intros Hreturns. by rewrite set_then_run, getStorageValue_run.
Qed.

Lemma new_events_update_world {A} (m : M A) w r text events :
  m w = (r, update_world text events w) -> new_events m w = events.
Proof.
  unfold new_events. intros ->. cbn. by rewrite drop_app_length.
Qed.

Lemma new_events_set key value secure w :
  has_representation secure w value ->
  new_events (setStorageValue key value secure) w =
  write_events key (stored_representation secure w value) secure w.
Proof.
  intros Hvalue. eapply new_events_update_world.
  by rewrite setStorageValue_run, has_representation_encoded.
Qed.

Lemma new_events_get key secure w :
  new_events (getStorageValue key secure) w = read_events key secure w.
Proof. eapply new_events_update_world. apply getStorageValue_run. Qed.

Lemma jsonify_property_representable v :
  json_representable v -> jsonify_property v = Some v.
Proof.
  intros Hv. apply jsonify_property_Some.
  split; [by destruct Hv | by rewrite jsonify_representable].
Qed.

Lemma read_result_own key secure w value :
  stored_document w !! key = Some value ->
  read_result key secure w =
  if secure && encryption_available w then
    match buffer_of value with
    | Some buffer =>
        match decryptString buffer with
        | Some plain => Ok (JStr plain)
        | None => Throw DecryptError
        end
    | None => Throw TypeError
    end
  else Ok value.
Proof. unfold read_result, get_property. by intros ->. Qed.

Lemma read_result_absent key secure w :
  inherited key = None ->
  stored_document w !! key = None ->
  read_result key secure w = Ok JNull.
Proof. unfold read_result, get_property. by intros -> ->. Qed.

(** ** Getting and setting *)

(** C2, as the code has it. Under a key that is not the name of a property
    of [Object.prototype], a JSON-representable value set without [secure]
    is the value a get of that key without [secure] returns. *)
Theorem set_get_round_trip key value w :
  inherited key = None ->
  json_representable value ->
  ((setStorageValue key value false;; getStorageValue key false) w).1
  = Ok value.
Proof.
  intros Hkey Hv.
  rewrite set_then_get by (by apply set_returns).
  erewrite read_result_own; [done |].
  rewrite stored_document_set_eq by done. cbn.
  by apply jsonify_property_representable.
Qed.

(** C6, as the code has it. A key that is not in the document and is not
    the name of a property of [Object.prototype] reads as [null], whatever
    [secure] is, and never as an exception; a key bound to [false], [0] or
    the empty string reads, without [secure], as that value, which is not
    [null]. *)
Theorem absent_key_reads_null key secure w key' value w' :
  inherited key = None ->
  stored_document w !! key = None ->
  value ∈ [JBool false; JNum 0; JStr ""] ->
  stored_document w' !! key' = Some value ->
  (getStorageValue key secure w).1 = Ok JNull /\
  (getStorageValue key' false w').1 = Ok value /\
  value <> JNull.
Proof.
  intros Hkey Habsent Hfalsy Hpresent. rewrite !getStorageValue_run. cbn [fst].
  rewrite read_result_absent by done.
  rewrite (read_result_own _ _ _ _ Hpresent). cbn.
  split; [done |]. split; [done |].
  rewrite !elem_of_cons, elem_of_nil in Hfalsy.
  by destruct Hfalsy as [->|[->|[->|[]]]].
Qed.

(** C7, as the code has it. When the file holds a text that is not JSON,
    reading the document gives the empty document, not an exception, and
    every key that is not the name of a property of [Object.prototype]
    reads as [null]. *)
Theorem malformed_file_reads_empty key secure w :
  inherited key = None ->
  storage_json w = Some Malformed ->
  (getStorage w).1 = Ok ∅ /\ (getStorageValue key secure w).1 = Ok JNull.
Proof.
  intros Hkey Hfile.
  assert (stored_document w = ∅) as Hdoc
    by (unfold stored_document; by rewrite Hfile).
  rewrite getStorage_run, getStorageValue_run. cbn [fst].
  rewrite read_result_absent; [by rewrite Hdoc | done |].
  by rewrite Hdoc, lookup_empty.
Qed.


(** C10, as the code has it. Under a key that is not the name of a
    property of [Object.prototype]: after [null] is set without [secure], a
    get of the key returns [null], as it does for a key that is absent,
    although the key is in the document. *)
Theorem null_reads_as_absent key w w0 :
  inherited key = None ->
  stored_document w0 !! key = None ->
  stored_document (setStorageValue key JNull false w).2 !! key = Some JNull /\
  ((setStorageValue key JNull false;; getStorageValue key false) w).1
    = Ok JNull /\
  (getStorageValue key false w0).1 = Ok JNull.
Proof.
  intros Hkey Habsent.
  assert (has_representation false w JNull) as Hvalue by done.
  assert (stored_document (setStorageValue key JNull false w).2 !! key
          = Some JNull) as Hstored by (by rewrite stored_document_set_eq).
  split; [done |]. split.
  - rewrite set_then_get by (by apply set_returns).
    by rewrite (read_result_own _ _ _ _ Hstored).
  - rewrite getStorageValue_run. cbn [fst]. by apply read_result_absent.
Qed.

(** ** Secure values *)

Lemma has_representation_secure value w plain :
  String_ value = Some plain -> has_representation true w value.
Proof. intros Hplain _. by eexists. Qed.

Lemma stored_representation_secure value w plain :
  encryption_available w = true ->
  String_ value = Some plain ->
  stored_representation true w value
  = JStr (toString_hex (encryptString plain)).
Proof. unfold stored_representation. by intros -> ->. Qed.

Lemma secure_read_back key value plain w :
  cipher_round_trip ->
  encryption_available w = true ->
  inherited key = None ->
  String_ value = Some plain ->
  read_result key true (setStorageValue key value true w).2
  = Ok (JStr plain).
Proof.
  intros Hcipher Havailable Hkey Hplain.
  erewrite read_result_own; cycle 1.
  { rewrite stored_document_set_eq
      by eauto using has_representation_secure.
    by erewrite stored_representation_secure. }
  rewrite encryption_available_set, Havailable. cbn.
  by rewrite Buffer_from_toString_hex, Hcipher.
Qed.

Lemma hex_of_ciphertext_differs s :
  ciphertext_longer -> toString_hex (encryptString s) <> s.
Proof.
  intros Hlonger Heq. specialize (Hlonger s).
  apply (f_equal String.length) in Heq.
  rewrite toString_hex_length in Heq. lia.
Qed.

(** C1, as the code has it. With encryption available, under a key that is
    not the name of a property of [Object.prototype], a string set with
    [secure] is the string a get with [secure] returns, and what the
    document on disk holds under the key is another value. *)
Theorem secure_set_get_round_trip key (v : string) w :
  cipher_round_trip ->
  ciphertext_longer ->
  encryption_available w = true ->
  inherited key = None ->
  ((setStorageValue key (JStr v) true;; getStorageValue key true) w).1
    = Ok (JStr v) /\
  stored_document (setStorageValue key (JStr v) true w).2 !! key
    = Some (JStr (toString_hex (encryptString v))) /\
  JStr (toString_hex (encryptString v)) <> JStr v.
Proof.
  intros Hcipher Hlonger Havailable Hkey. split; [| split].
  - rewrite set_then_get
      by (apply set_returns; [done | apply has_representation_string]).
    by apply secure_read_back.
  - rewrite stored_document_set_eq
      by (done || apply has_representation_string).
    unfold stored_representation. by rewrite Havailable.
  - intros [= Heq]. by apply (hex_of_ciphertext_differs v).
Qed.

(** C9, as the code has it. With encryption available, under a key that is
    not the name of a property of [Object.prototype], a value set with
    [secure] is encrypted in its string form, when [String(v)] returns one,
    so a get with [secure] returns [String(v)]: for a value that is not a
    string, not the value itself. *)
Theorem secure_set_stringifies key value plain w :
  cipher_round_trip ->
  encryption_available w = true ->
  inherited key = None ->
  String_ value = Some plain ->
  ((setStorageValue key value true;; getStorageValue key true) w).1
    = Ok (JStr plain) /\
  ((forall s, value <> JStr s) -> JStr plain <> value).
Proof.
  intros Hcipher Havailable Hkey Hplain. split.
  - rewrite set_then_get
      by (apply set_returns; eauto using has_representation_secure).
    by apply secure_read_back.
  - intros Hvalue Heq. by apply (Hvalue plain).
Qed.

(** C5, as the code has it. With encryption unavailable, under a key that
    is not the name of a property of [Object.prototype], a set with
    [secure] of a JSON-representable value returns after a warning, the
    document on disk holds the value itself, and a get with [secure]
    returns it. *)
Theorem plaintext_fallback_round_trip key value w :
  inherited key = None ->
  json_representable value ->
  encryption_available w = false ->
  (setStorageValue key value true w).1 = Ok tt /\
  Log "WARNING: Encryption is not available, storing value as is." "Storage"
    ∈ new_events (setStorageValue key value true) w /\
  stored_document (setStorageValue key value true w).2 !! key = Some value /\
  ((setStorageValue key value true;; getStorageValue key true) w).1
    = Ok value.
Proof.
  intros Hkey Hv Hunavailable.
  assert (has_representation true w value) as Hvalue
    by (apply has_representation_plain; by right).
  assert (stored_document (setStorageValue key value true w).2 !! key
          = Some value) as Hstored.
  { rewrite stored_document_set_eq by done. unfold stored_representation.
    rewrite Hunavailable. cbn. by apply jsonify_property_representable. }
  pose proof (set_returns key value true w Hkey Hvalue) as Hreturns.
  split; [done |]. split; [| split; [done |]].
  - rewrite new_events_set by done. unfold write_events.
    rewrite Hunavailable. cbn.
    apply elem_of_cons. right. apply elem_of_cons. by left.
  - rewrite set_then_get by done.
    rewrite (read_result_own _ _ _ _ Hstored).
    by rewrite encryption_available_set, Hunavailable.
Qed.

(** The restriction of C5 to JSON-representable values is the one the code
    forces: only such a value is found in the document as it was given. *)
Lemma stored_as_given_is_json key value secure w :
  inherited key = None ->
  has_representation secure w value ->
  stored_document (setStorageValue key value secure w).2 !! key
    = Some (stored_representation secure w value) ->
  json_representable (stored_representation secure w value).
Proof.
  intros Hkey Hvalue. rewrite stored_document_set_eq by done.
  intros [Hdefined Hjson]%jsonify_property_Some.
  rewrite Hjson. by apply jsonify_is_json.
Qed.

(** ** Handler dispatch *)

Lemma stored_representation_plain secure w value :
  secure = false \/ encryption_available w = false ->
  stored_representation secure w value = value.
Proof.
  unfold stored_representation. intros [-> | ->]; [done |].
  by rewrite andb_false_r.
Qed.

Lemma seed_events_quiet w : List.filter is_handler_event (seed_events w) = [].
Proof. unfold seed_events. by destruct (storage_json w). Qed.

Lemma handler_event_is_handler key effect value :
  handler_event key = Some effect -> is_handler_event (effect value) = true.
Proof.
  unfold handler_event. by repeat case_decide; intros; simplify_eq.
Qed.

Lemma dispatch_events_registered key effect stored :
  handler_event key = Some effect ->
  dispatch_events key stored =
  [Log ("Running handler for key: " ++ key) "Storage"; effect stored].
Proof. unfold dispatch_events. by intros ->. Qed.

Lemma dispatch_events_handlers key stored :
  List.filter is_handler_event (dispatch_events key stored) =
  match handler_event key with
  | Some effect => [effect stored]
  | None => []
  end.
Proof.
  unfold dispatch_events.
  destruct (handler_event key) as [effect|] eqn:Heffect.
  - cbn. by rewrite (handler_event_is_handler key effect stored).
  - by destruct (inherited key).
Qed.

Lemma write_events_handlers key stored secure w :
  List.filter is_handler_event (write_events key stored secure w) =
  match handler_event key with
  | Some effect => [effect stored]
  | None => []
  end.
Proof.
  unfold write_events.
  rewrite !List.filter_app, seed_events_quiet, dispatch_events_handlers.
  by destruct (secure && negb (encryption_available w)).
Qed.

(** A set of a key with a handler runs it once, after the write, on the
    value that was put in the document. *)
Lemma handler_runs_once_after_write key value secure w handler :
  has_representation secure w value ->
  storageValueHandlers !! key = Some handler ->
  exists effect before,
    handler = (fun v => emit (effect v)) /\
    new_events (setStorageValue key value secure) w =
      (before ++
       [WriteFile (storage_path w)
          (JSON_stringify
             (<[key := stored_representation secure w value]>
                (stored_document w)));
        Log ("Running handler for key: " ++ key) "Storage";
        effect (stored_representation secure w value)])%list /\
    List.filter is_handler_event before = [].
Proof.
  intros Hvalue. rewrite storageValueHandlers_lookup, new_events_set by done.
  unfold write_events.
  destruct (handler_event key) as [effect|] eqn:Heffect; [cbn | done].
  intros [= <-]. exists effect.
  eexists (Log _ _ :: (if secure && negb (encryption_available w)
                       then [_] else []) ++ seed_events w).
  split; [done |]. split.
  - rewrite (dispatch_events_registered _ _ _ Heffect).
    rewrite set_property_ordinary
      by (by eapply handler_event_not_inherited).
    cbn. f_equal. by rewrite <- app_assoc.
  - cbn. rewrite List.filter_app, seed_events_quiet.
    by destruct (secure && negb (encryption_available w)).
Qed.

(** The value the handler is run on is the one the caller gave when
    [secure] is off or encryption is unavailable. *)
Lemma handler_gets_given_value key value secure w effect :
  handler_event key = Some effect ->
  secure = false \/ encryption_available w = false ->
  List.filter is_handler_event
    (new_events (setStorageValue key value secure) w) = [effect value].
Proof.
  intros Hhandler Hplain.
  rewrite new_events_set by (by apply has_representation_plain).
  by rewrite write_events_handlers, Hhandler, stored_representation_plain.
Qed.

(** A set of a key without a handler runs none; under a name that
    [Object.prototype] does not define it reports none either. *)
Lemma no_handler_no_dispatch key value secure w :
  storageValueHandlers !! key = None ->
  List.filter is_handler_event (new_events (setStorageValue key value secure) w)
  = [] /\
  (inherited key = None ->
   Log ("Running handler for key: " ++ key) "Storage"
     ∉ new_events (setStorageValue key value secure) w).
Proof.
  rewrite storageValueHandlers_lookup.
  destruct (handler_event key) as [effect|] eqn:Heffect; [done |]. intros _.
  assert (new_events (setStorageValue key value secure) w =
          match encoded secure w value with
          | Some stored => write_events key stored secure w
          | None => [Log ("Setting value for key: " ++ key) "Storage"]
          end) as ->.
  { unfold new_events. rewrite setStorageValue_run.
    destruct (encoded secure w value) as [stored|]; cbn;
      by rewrite drop_app_length. }
  destruct (encoded secure w value) as [stored|]; split.
  - by rewrite write_events_handlers, Heffect.
  - intros Hkey. unfold write_events, dispatch_events, seed_events.
    rewrite Heffect, Hkey.
    destruct (secure && negb (encryption_available w)), (storage_json w);
      cbn; rewrite ?elem_of_cons, elem_of_nil; intros Hin;
      repeat destruct Hin as [Hin | Hin]; by simplify_eq.
  - done.
  - intros _. rewrite elem_of_cons, elem_of_nil. intros [Hin | []].
    by simplify_eq.
Qed.

(** C3, where the code departs from it. With encryption available, a set
    of ["timeFormat"] with [secure] runs the handler on the hex form of the
    ciphertext, not on the value it was given. *)
Theorem secure_set_hands_ciphertext_to_handler w :
  encryption_available w = true ->
  List.filter is_handler_event
    (new_events (setStorageValue "timeFormat" (JStr "HH:mm") true) w)
  = [UpdateTime (JStr (toString_hex (encryptString "HH:mm")))] /\
  UpdateTime (JStr (toString_hex (encryptString "HH:mm")))
  <> UpdateTime (JStr "HH:mm").
Proof.
  intros Havailable. split.
  - rewrite new_events_set by apply has_representation_string.
    rewrite write_events_handlers. unfold stored_representation.
    by rewrite Havailable.
  - intros [= Heq]. apply (f_equal String.length) in Heq.
    rewrite toString_hex_length in Heq. cbn in Heq. lia.
Qed.
(** ** The socket password *)

Lemma getSocketPassword_run w :
  getSocketPassword w =
  match read_result "socketPassword" true w with
  | Ok value =>
      if truthy value
      then (Ok value,
            update_world (seeded_file w)
              (read_events "socketPassword" true w) w)
      else
        let fresh := random_string 64 (entropy w) in
        (Ok (JStr fresh),
         (setStorageValue "socketPassword" (JStr fresh) true
            (draw (update_world (seeded_file w)
                     (read_events "socketPassword" true w) w))).2)
  | Throw e =>
      (Throw e,
       update_world (seeded_file w) (read_events "socketPassword" true w) w)
  | Native member =>
      (Native member,
       update_world (seeded_file w) (read_events "socketPassword" true w) w)
  end.
Proof.
  unfold getSocketPassword. rewrite bind_run, getStorageValue_run.
  destruct (read_result "socketPassword" true w) as [value|e|member];
    [| done | done].
  destruct (truthy value); [done |]. cbn [negb].
  rewrite bind_run. unfold random at 1. cbv beta iota.
  by rewrite set_then_run
    by (apply set_returns; [done | apply has_representation_string]).
Qed.

Lemma read_result_ext key secure w w' :
  stored_document w' !! key = stored_document w !! key ->
  encryption_available w' = encryption_available w ->
  read_result key secure w' = read_result key secure w.
Proof. unfold read_result, get_property. by intros -> ->. Qed.

Lemma read_result_update_world key secure events w :
  read_result key secure (update_world (seeded_file w) events w) =
  read_result key secure w.
Proof.
  apply read_result_ext; [| done].
  by rewrite stored_document_update_world, stored_document_seeded.
Qed.

Lemma read_events_quiet key secure w :
  is_Some (storage_json w) ->
  forallb is_log (read_events key secure w) = true.
Proof.
  intros [text Htext]. unfold read_events, seed_events. rewrite Htext. cbn.
  destruct (get_property (stored_document w) key); [| | done];
    by destruct (secure && negb (encryption_available w)).
Qed.

Lemma files_update_world_seeded events w :
  is_Some (storage_json w) ->
  files (update_world (seeded_file w) events w) = files w.
Proof.
  intros [text Htext]. unfold seeded_file. rewrite Htext. cbn.
  by apply insert_id.
Qed.





End Properties.

(** ** The test platform meets the assumptions *)

Lemma test_list_byte_length s :
  length (String.list_byte_of_string s) = String.length s.
Proof. induction s as [|c s IH]; cbn; [done | by rewrite <- IH]. Qed.

Lemma test_cipher_round_trip : @cipher_round_trip TestPlatform.platform.
Proof.
  intros s. cbn. unfold TestPlatform.encrypt, TestPlatform.decrypt.
  by rewrite rev_involutive, String.string_of_list_byte_of_string.
Qed.

Lemma test_ciphertext_longer : @ciphertext_longer TestPlatform.platform.
Proof.
  intros s. cbn. unfold TestPlatform.encrypt. cbn.
  rewrite length_rev, test_list_byte_length. lia.
Qed.


(** ** The theorems at work on the test platform *)

Section Witnesses.
#[local] Existing Instance TestPlatform.platform.

Lemma set_get_round_trip_witness :
  inherited "launchOnStartup" = None /\
  json_representable (JBool true) /\
  ((setStorageValue "launchOnStartup" (JBool true) false;;
    getStorageValue "launchOnStartup" false)
     (TestPlatform.world None false)).1 = Ok (JBool true).
Proof.
  split; [reflexivity |]. split; [constructor |].
  apply (set_get_round_trip "launchOnStartup" (JBool true)
           (TestPlatform.world None false)); [reflexivity | constructor].
Defined.

(** C2, as it is stated, fails at the key ["__proto__"]: the assignment
    goes to the setter the document inherits, the document is written
    without the key, and the lookup in the table of handlers finds
    [Object.prototype], which is called and is no function. *)
Lemma round_trip_fails_at_proto :
  json_representable (JStr "x") /\
  ((setStorageValue "__proto__" (JStr "x") false;;
    getStorageValue "__proto__" false)
     (TestPlatform.world None false)).1 = Throw TypeError /\
  storage_json
    (setStorageValue "__proto__" (JStr "x") false
       (TestPlatform.world None false)).2 = Some (JsonText ∅) /\
  ~ ((setStorageValue "__proto__" (JStr "x") false;;
      getStorageValue "__proto__" false)
       (TestPlatform.world None false)).1 = Ok (JStr "x").
Proof.
  split; [constructor |]. split; [vm_compute; reflexivity |].
  split; [vm_compute; reflexivity |].
  intros Hget. vm_compute in Hget. discriminate Hget.
Qed.

Lemma secure_set_get_round_trip_witness :
  cipher_round_trip /\ ciphertext_longer /\
  encryption_available (TestPlatform.world None true) = true /\
  inherited "sp_dc" = None /\
  ((setStorageValue "sp_dc" (JStr "cookie") true;;
    getStorageValue "sp_dc" true) (TestPlatform.world None true)).1
    = Ok (JStr "cookie") /\
  stored_document
    (setStorageValue "sp_dc" (JStr "cookie") true
       (TestPlatform.world None true)).2 !! "sp_dc"
    = Some (JStr (toString_hex (encryptString "cookie"))) /\
  JStr (toString_hex (encryptString "cookie")) <> JStr "cookie".
Proof.
  split; [exact test_cipher_round_trip |].
  split; [exact test_ciphertext_longer |].
  split; [reflexivity |]. split; [reflexivity |].
  exact (secure_set_get_round_trip "sp_dc" "cookie"
           (TestPlatform.world None true)
           test_cipher_round_trip test_ciphertext_longer eq_refl eq_refl).
Defined.

(** C1, as it is stated, fails at the key ["__proto__"]: nothing is stored
    under the key and the set throws after its write. *)
Lemma secure_round_trip_fails_at_proto :
  encryption_available (TestPlatform.world None true) = true /\
  ((setStorageValue "__proto__" (JStr "x") true;;
    getStorageValue "__proto__" true) (TestPlatform.world None true)).1
    = Throw TypeError /\
  stored_document
    (setStorageValue "__proto__" (JStr "x") true
       (TestPlatform.world None true)).2 !! "__proto__" = None /\
  ~ ((setStorageValue "__proto__" (JStr "x") true;;
      getStorageValue "__proto__" true) (TestPlatform.world None true)).1
    = Ok (JStr "x").
Proof.
  split; [reflexivity |]. split; [vm_compute; reflexivity |].
  split; [vm_compute; reflexivity |].
  intros Hget. vm_compute in Hget. discriminate Hget.
Qed.

Lemma secure_set_stringifies_witness :
  cipher_round_trip /\
  encryption_available (TestPlatform.world (Some Malformed) true) = true /\
  inherited "sp_dc" = None /\
  String_ (JBool true) = Some "true" /\
  ((setStorageValue "sp_dc" (JBool true) true;;
    getStorageValue "sp_dc" true)
     (TestPlatform.world (Some Malformed) true)).1 = Ok (JStr "true") /\
  JStr "true" <> JBool true.
Proof.
  split; [exact test_cipher_round_trip |]. split; [reflexivity |].
  split; [reflexivity |]. split; [reflexivity |].
  destruct (secure_set_stringifies "sp_dc" (JBool true) "true"
              (TestPlatform.world (Some Malformed) true)
              test_cipher_round_trip eq_refl eq_refl eq_refl)
    as [Hget Hdiffers].
  split; [exact Hget |]. apply Hdiffers. intros s. discriminate.
Defined.

(** C9, as it is stated, fails at the key ["__proto__"], where the set
    throws after its write, and for an object with an own property
    [toString], which has no string form: [String(v)] throws, nothing is
    written and the get finds nothing. *)
Lemma secure_set_fails_to_stringify :
  ((setStorageValue "__proto__" (JBool true) true;;
    getStorageValue "__proto__" true) (TestPlatform.world None true)).1
    = Throw TypeError /\
  String_ (JObj {[ "toString" := JNum 1 ]}) = None /\
  (setStorageValue "sp_dc" (JObj {[ "toString" := JNum 1 ]}) true
     (TestPlatform.world None true)).1 = Throw TypeError /\
  (getStorageValue "sp_dc" true
     (setStorageValue "sp_dc" (JObj {[ "toString" := JNum 1 ]}) true
        (TestPlatform.world None true)).2).1 = Ok JNull /\
  ~ ((setStorageValue "__proto__" (JBool true) true;;
      getStorageValue "__proto__" true) (TestPlatform.world None true)).1
    = Ok (JStr "true").
Proof.
  split; [vm_compute; reflexivity |]. split; [vm_compute; reflexivity |].
  split; [vm_compute; reflexivity |]. split; [vm_compute; reflexivity |].
  intros Hget. vm_compute in Hget. discriminate Hget.
Qed.

Lemma plaintext_fallback_round_trip_witness :
  inherited "sp_dc" = None /\
  json_representable (JStr "cookie") /\
  encryption_available (TestPlatform.world None false) = false /\
  (setStorageValue "sp_dc" (JStr "cookie") true
     (TestPlatform.world None false)).1 = Ok tt /\
  Log "WARNING: Encryption is not available, storing value as is." "Storage"
    ∈ new_events (setStorageValue "sp_dc" (JStr "cookie") true)
        (TestPlatform.world None false) /\
  stored_document
    (setStorageValue "sp_dc" (JStr "cookie") true
       (TestPlatform.world None false)).2 !! "sp_dc"
    = Some (JStr "cookie") /\
  ((setStorageValue "sp_dc" (JStr "cookie") true;;
    getStorageValue "sp_dc" true) (TestPlatform.world None false)).1
    = Ok (JStr "cookie").
Proof.
  split; [reflexivity |]. split; [constructor |]. split; [reflexivity |].
  apply (plaintext_fallback_round_trip "sp_dc" (JStr "cookie")
           (TestPlatform.world None false));
    [reflexivity | constructor | reflexivity].
Defined.

(** C5, as it is stated, fails for [undefined]: JSON has no place for it,
    the key is left out of the file and a get returns [null]. It fails at
    the key ["__proto__"] too: nothing is stored and the set ends in a
    [TypeError], not in a warning. *)
Lemma undefined_is_not_stored :
  ~ (stored_document
       (setStorageValue "sp_dc" JUndefined true
          (TestPlatform.world None false)).2 !! "sp_dc" = Some JUndefined /\
     ((setStorageValue "sp_dc" JUndefined true;;
       getStorageValue "sp_dc" true) (TestPlatform.world None false)).1
     = Ok JUndefined) /\
  ~ ((setStorageValue "__proto__" (JStr "x") true
        (TestPlatform.world None false)).1 = Ok tt /\
     stored_document
       (setStorageValue "__proto__" (JStr "x") true
          (TestPlatform.world None false)).2 !! "__proto__"
     = Some (JStr "x")).
Proof.
  split.
  - intros [_ Hget]. vm_compute in Hget. discriminate Hget.
  - intros [Hset _]. vm_compute in Hset. discriminate Hset.
Qed.

Lemma absent_key_reads_null_witness :
  inherited "missing" = None /\
  stored_document (TestPlatform.world None true) !! "missing" = None /\
  JBool false ∈ [JBool false; JNum 0; JStr ""] /\
  stored_document
    (TestPlatform.world
       (Some (JsonText {[ "launchMinimized" := JBool false ]})) false)
    !! "launchMinimized" = Some (JBool false) /\
  (getStorageValue "missing" true (TestPlatform.world None true)).1
    = Ok JNull /\
  (getStorageValue "launchMinimized" false
     (TestPlatform.world
        (Some (JsonText {[ "launchMinimized" := JBool false ]})) false)).1
    = Ok (JBool false) /\
  JBool false <> JNull.
Proof.
  assert (stored_document
            (TestPlatform.world
               (Some (JsonText {[ "launchMinimized" := JBool false ]})) false)
            !! "launchMinimized" = Some (JBool false)) as Hpresent
    by (vm_compute; reflexivity).
  split; [reflexivity |]. split; [reflexivity |].
  split; [apply list_elem_of_here |]. split; [exact Hpresent |].
  exact (absent_key_reads_null "missing" true (TestPlatform.world None true)
           "launchMinimized" (JBool false) _
           eq_refl eq_refl (list_elem_of_here _ _) Hpresent).
Defined.

(** C6, as it is stated, fails at the key ["toString"], absent from the
    document: the read finds the function the document inherits, and the
    get returns it; with [secure] and encryption available it throws. *)
Lemma absent_inherited_name_is_not_null :
  stored_document (TestPlatform.world (Some (JsonText ∅)) true) !! "toString"
    = None /\
  (getStorageValue "toString" false
     (TestPlatform.world (Some (JsonText ∅)) true)).1 = Native ToString /\
  (getStorageValue "toString" true
     (TestPlatform.world (Some (JsonText ∅)) true)).1 = Throw TypeError /\
  ~ (getStorageValue "toString" false
       (TestPlatform.world (Some (JsonText ∅)) true)).1 = Ok JNull.
Proof.
  split; [vm_compute; reflexivity |]. split; [vm_compute; reflexivity |].
  split; [vm_compute; reflexivity |].
  intros Hget. vm_compute in Hget. discriminate Hget.
Qed.

Lemma malformed_file_reads_empty_witness :
  inherited "timeFormat" = None /\
  storage_json (TestPlatform.world (Some Malformed) true) = Some Malformed /\
  (getStorage (TestPlatform.world (Some Malformed) true)).1 = Ok ∅ /\
  (getStorageValue "timeFormat" false
     (TestPlatform.world (Some Malformed) true)).1 = Ok JNull.
Proof.
  assert (storage_json (TestPlatform.world (Some Malformed) true)
          = Some Malformed) as Hfile by (vm_compute; reflexivity).
  split; [reflexivity |]. split; [exact Hfile |].
  exact (malformed_file_reads_empty "timeFormat" false _ eq_refl Hfile).
Defined.

(** C7, as it is stated, fails at the key ["toString"]: on the empty
    document that stands in for the malformed file the read finds the
    inherited function; with [secure] and encryption available the get
    throws. *)
Lemma malformed_file_reads_inherited_name :
  storage_json (TestPlatform.world (Some Malformed) true) = Some Malformed /\
  (getStorageValue "toString" false
     (TestPlatform.world (Some Malformed) true)).1 = Native ToString /\
  (getStorageValue "toString" true
     (TestPlatform.world (Some Malformed) true)).1 = Throw TypeError /\
  ~ (getStorageValue "toString" false
       (TestPlatform.world (Some Malformed) true)).1 = Ok JNull.
Proof.
  split; [vm_compute; reflexivity |]. split; [vm_compute; reflexivity |].
  split; [vm_compute; reflexivity |].
  intros Hget. vm_compute in Hget. discriminate Hget.
Qed.



Lemma null_reads_as_absent_witness :
  inherited "launchMinimized" = None /\
  stored_document (TestPlatform.world None false) !! "launchMinimized"
    = None /\
  stored_document
    (setStorageValue "launchMinimized" JNull false
       (TestPlatform.world None false)).2 !! "launchMinimized"
    = Some JNull /\
  ((setStorageValue "launchMinimized" JNull false;;
    getStorageValue "launchMinimized" false)
     (TestPlatform.world None false)).1 = Ok JNull /\
  (getStorageValue "launchMinimized" false
     (TestPlatform.world None false)).1 = Ok JNull.
Proof.
  split; [reflexivity |]. split; [reflexivity |].
  exact (null_reads_as_absent "launchMinimized"
           (TestPlatform.world None false) (TestPlatform.world None false)
           eq_refl eq_refl).
Defined.

(** C10, as it is stated, fails at the key ["__proto__"]: the set of
    [null] stores nothing and throws after its write; and at an inherited
    name the get tells a stored [null] from an absent key, which reads as
    the inherited member. *)
Lemma null_at_inherited_name_is_told_apart :
  ((setStorageValue "__proto__" JNull false;;
    getStorageValue "__proto__" false) (TestPlatform.world None false)).1
    = Throw TypeError /\
  stored_document
    (setStorageValue "__proto__" JNull false
       (TestPlatform.world None false)).2 !! "__proto__" = None /\
  ((setStorageValue "toString" JNull false;;
    getStorageValue "toString" false) (TestPlatform.world None false)).1
    = Ok JNull /\
  (getStorageValue "toString" false (TestPlatform.world None false)).1
    = Native ToString /\
  ~ ((setStorageValue "__proto__" JNull false;;
      getStorageValue "__proto__" false) (TestPlatform.world None false)).1
    = Ok JNull.
Proof.
  split; [vm_compute; reflexivity |]. split; [vm_compute; reflexivity |].
  split; [vm_compute; reflexivity |]. split; [vm_compute; reflexivity |].
  intros Hget. vm_compute in Hget. discriminate Hget.
Qed.

Lemma secure_set_hands_ciphertext_to_handler_witness :
  encryption_available (TestPlatform.world None true) = true /\
  List.filter is_handler_event
    (new_events (setStorageValue "timeFormat" (JStr "HH:mm") true)
       (TestPlatform.world None true))
  = [UpdateTime (JStr (toString_hex (encryptString "HH:mm")))] /\
  UpdateTime (JStr (toString_hex (encryptString "HH:mm")))
  <> UpdateTime (JStr "HH:mm").
Proof.
  split; [reflexivity |].
  exact (secure_set_hands_ciphertext_to_handler
           (TestPlatform.world None true) eq_refl).
Defined.


End Witnesses.


(** * More of the store *)

Section MoreProperties.
Context `{Platform}.

Lemma set_result_cases key value secure w :
  (setStorageValue key value secure w).1 = Ok tt \/
  (setStorageValue key value secure w).1 = Throw TypeError.
Proof.
  rewrite setStorageValue_run.
  destruct (encoded secure w value) as [stored|]; [cbn | by right].
  unfold dispatch_result.
  destruct (handler_event key), (inherited key);
    auto using call_result_cases.
Qed.

(** A set that returns has bound the key. *)
Lemma set_returns_binds key value secure w :
  (setStorageValue key value secure w).1 = Ok tt ->
  stored_document (setStorageValue key value secure w).2 !! key =
  jsonify_property (stored_representation secure w value).
Proof.
  rewrite setStorageValue_run.
  destruct (encoded secure w value) as [stored|] eqn:Hencoded; [| done].
  apply encoded_representation in Hencoded as <-. cbn [fst snd].
  rewrite stored_document_update_world. cbn.
  rewrite lookup_jsonify_document. unfold set_property, dispatch_result.
  destruct (stored_document w !! key) eqn:Hkey;
    [by rewrite lookup_insert_eq |].
  destruct (handler_event key) as [effect|] eqn:Heffect.
  { by rewrite (handler_event_not_inherited _ _ Heffect), lookup_insert_eq. }
  destruct (inherited key) as [[]|]; by rewrite ?lookup_insert_eq.
Qed.

Lemma stored_representation_set secure key v s w value :
  stored_representation secure (setStorageValue key v s w).2 value =
  stored_representation secure w value.
Proof.
  unfold stored_representation. by rewrite encryption_available_set.
Qed.

Lemma has_representation_set secure key v s w value :
  has_representation secure w value ->
  has_representation secure (setStorageValue key v s w).2 value.
Proof.
  unfold has_representation. by rewrite encryption_available_set.
Qed.

Lemma stored_document_set_lookup key value secure w i :
  inherited key = None ->
  has_representation secure w value ->
  stored_document (setStorageValue key value secure w).2 !! i =
  if decide (key = i)
  then jsonify_property (stored_representation secure w value)
  else stored_document w !! i.
Proof.
  intros Hkey Hvalue.
  case_decide as Hi; [subst; by apply stored_document_set_eq |].
  by apply stored_document_set_ne.
Qed.

Lemma stored_value_is_json w key v :
  stored_document w !! key = Some v -> json_representable v.
Proof.
  intros Hv. pose proof (stored_document_lookup_json _ _ _ Hv) as Hjson.
  apply jsonify_property_Some in Hjson as [Hdefined ->].
  by apply jsonify_is_json.
Qed.

Lemma plain_read_result key w :
  inherited key = None ->
  read_result key false w = Ok (default JNull (stored_document w !! key)).
Proof.
  intros Hkey. unfold read_result, get_property. rewrite Hkey.
  by destruct (stored_document w !! key).
Qed.

Lemma update_world_existing events w :
  is_Some (storage_json w) ->
  update_world (seeded_file w) events w =
  {| userData := userData w;
     files := files w;
     encryption_available := encryption_available w;
     entropy := entropy w;
     trace := trace w ++ events |}.
Proof.
  intros Hfile. unfold update_world.
  pose proof (files_update_world_seeded events w Hfile) as Hfiles.
  unfold update_world in Hfiles. cbn in Hfiles. by rewrite Hfiles.
Qed.

(** ** The file *)

(** X1. [getStoragePath] returns the path of [storage.json] in the user
    data directory; it creates the file, holding ['{}'], only when it is
    missing, leaves a file that is there as it is, whatever it holds, and
    called again changes nothing. *)
Theorem getStoragePath_keeps_existing_file w :
  (getStoragePath w).1 = Ok (path_join (userData w) "storage.json") /\
  storage_json (getStoragePath w).2
    = Some (default empty_object_text (storage_json w)) /\
  (is_Some (storage_json w) -> (getStoragePath w).2 = w) /\
  (getStoragePath (getStoragePath w).2).2 = (getStoragePath w).2.
Proof.
  rewrite !getStoragePath_run. cbn [fst snd].
  split; [done |]. split; [apply storage_json_update_world |]. split.
  - intros Hfile. rewrite update_world_existing by done.
    unfold seed_events. destruct Hfile as [text ->].
    rewrite app_nil_r. by destruct w.
  - rewrite update_world_update_world, seeded_file_update_world.
    by rewrite seed_events_update_world, app_nil_r.
Qed.

(** X2. A get never changes the document the store holds, also when it
    throws; once [storage.json] exists it leaves every file as it is and
    does nothing but log. *)
Theorem get_never_writes key secure w :
  stored_document (getStorageValue key secure w).2 = stored_document w /\
  (is_Some (storage_json w) ->
   files (getStorageValue key secure w).2 = files w /\
   forallb is_log (new_events (getStorageValue key secure) w) = true).
Proof.
  split.
  - rewrite getStorageValue_run. cbn [snd].
    by rewrite stored_document_update_world, stored_document_seeded.
  - intros Hfile. rewrite new_events_get, getStorageValue_run. cbn [snd].
    split; [by apply files_update_world_seeded |].
    by apply read_events_quiet.
Qed.

(** X3. No function of the store touches a file other than
    [storage.json]. *)
Theorem other_files_untouched path key value secure w :
  path <> path_join (userData w) "storage.json" ->
  files (getStorageValue key secure w).2 !! path = files w !! path /\
  files (setStorageValue key value secure w).2 !! path = files w !! path /\
  files (getSocketPassword w).2 !! path = files w !! path.
Proof.
  intros Hpath.
  assert (forall text events,
            files (update_world text events w) !! path = files w !! path)
    as Hkept by (intros; by apply lookup_insert_ne).
  assert (forall k v s w',
            userData w' = userData w ->
            files (setStorageValue k v s w').2 !! path = files w' !! path)
    as Hset.
  { intros k v s w' Hdir. rewrite setStorageValue_run.
    destruct (encoded s w' v); [| done]. cbn [snd].
    apply lookup_insert_ne. unfold storage_path. by rewrite Hdir. }
  rewrite getStorageValue_run, getSocketPassword_run.
  cbn [snd]. split; [apply Hkept |]. split; [by apply Hset |].
  destruct (read_result "socketPassword" true w) as [v|e|member];
    [| apply Hkept | apply Hkept].
  destruct (truthy v); [apply Hkept |]. cbn [snd].
  rewrite Hset by done. apply Hkept.
Qed.

(** X24. [getStorage] after [writeStorage] returns the document as JSON
    keeps it, without the properties whose value is [undefined]; a document
    of JSON-representable values comes back as it was written. *)
Theorem write_then_read_storage (storage : document) w :
  ((writeStorage storage;; getStorage) w).1
    = Ok (jsonify_document storage) /\
  ((forall key value,
      storage !! key = Some value -> json_representable value) ->
   ((writeStorage storage;; getStorage) w).1 = Ok storage).
Proof.
  assert (((writeStorage storage;; getStorage) w).1
          = Ok (jsonify_document storage)) as Hread.
  { rewrite bind_run, writeStorage_run. cbv beta iota.
    rewrite getStorage_run. cbn [fst].
    by rewrite stored_document_update_world. }
  split; [done |]. intros Hjson. rewrite Hread. f_equal.
  apply map_eq. intros key. rewrite lookup_jsonify_document.
  destruct (storage !! key) as [value|] eqn:Hkey; [cbn | done].
  by eapply jsonify_property_representable, Hjson.
Qed.

(** ** Sets and gets, composed *)

(** X4. Of two sets of one key, a name that [Object.prototype] does not
    define, the second wins: the document is the one read before the first
    set with the key bound to what the second set stores, and nothing of
    the first value is left. *)
Theorem last_set_wins key v1 v2 s1 s2 w :
  inherited key = None ->
  has_representation s1 w v1 ->
  has_representation s2 w v2 ->
  stored_document ((setStorageValue key v1 s1;; setStorageValue key v2 s2) w).2
  = jsonify_document
      (<[key := stored_representation s2 w v2]> (stored_document w)).
Proof.
  intros Hkey Hv1 Hv2. rewrite set_then_run by (by apply set_returns).
  apply map_eq. intros i.
  rewrite stored_document_set_lookup
    by (done || by apply has_representation_set).
  rewrite stored_representation_set, lookup_jsonify_document.
  case_decide as Hi; [subst; by rewrite lookup_insert_eq |].
  rewrite stored_document_set_ne, lookup_insert_ne by done.
  destruct (stored_document w !! i) as [x|] eqn:Hx; [cbn | done].
  symmetry. by eapply stored_document_lookup_json.
Qed.

(** X5. Sets of two different keys, names that [Object.prototype] does not
    define, of values stored as they are given (no [secure], or encryption
    unavailable), leave the document with both keys bound, whichever is
    set first. *)
Theorem sets_of_distinct_keys_commute k1 k2 v1 v2 s1 s2 w :
  inherited k1 = None ->
  inherited k2 = None ->
  s1 = false \/ encryption_available w = false ->
  s2 = false \/ encryption_available w = false ->
  k1 <> k2 ->
  stored_document ((setStorageValue k1 v1 s1;; setStorageValue k2 v2 s2) w).2
  = jsonify_document (<[k1 := v1]> (<[k2 := v2]> (stored_document w))) /\
  stored_document ((setStorageValue k2 v2 s2;; setStorageValue k1 v1 s1) w).2
  = jsonify_document (<[k1 := v1]> (<[k2 := v2]> (stored_document w))).
Proof.
  intros Hk1 Hk2 Hs1 Hs2 Hne.
  pose proof (has_representation_plain s1 w v1 Hs1) as Hv1.
  pose proof (has_representation_plain s2 w v2 Hs2) as Hv2.
  rewrite !set_then_run by (by apply set_returns).
  split; apply map_eq; intros i;
    rewrite !stored_document_set_lookup
      by (done || by apply has_representation_set);
    rewrite !stored_representation_set, lookup_jsonify_document;
    rewrite !stored_representation_plain by done;
    rewrite !lookup_insert;
    repeat case_decide; simplify_eq; try done;
    (destruct (stored_document w !! i) as [x|] eqn:Hx; [cbn | done]);
    symmetry; by eapply stored_document_lookup_json.
Qed.

(** X6. A set of one key, also one that throws after its write, does not
    change what a get of another key returns, with or without [secure]. *)
Theorem set_keeps_other_reads key key' value secure secure' w :
  key' <> key ->
  (getStorageValue key' secure' (setStorageValue key value secure w).2).1
  = (getStorageValue key' secure' w).1.
Proof.
  intros Hne. rewrite !getStorageValue_run. cbn [fst].
  apply read_result_ext;
    [by apply stored_document_set_ne | apply encryption_available_set].
Qed.

(** X7. Where the value is stored as it is given (no [secure], or
    encryption unavailable), a set of [undefined] under a name that
    [Object.prototype] does not define takes the key out of the document
    and a get of it returns [null]. *)
Theorem set_undefined_removes_key key secure secure' w :
  inherited key = None ->
  secure = false \/ encryption_available w = false ->
  stored_document (setStorageValue key JUndefined secure w).2
    = delete key (stored_document w) /\
  ((setStorageValue key JUndefined secure;; getStorageValue key secure') w).1
    = Ok JNull.
Proof.
  intros Hkey Hplain.
  pose proof (has_representation_plain secure w JUndefined Hplain) as Hvalue.
  assert (stored_document (setStorageValue key JUndefined secure w).2
          = delete key (stored_document w)) as Hdoc.
  { apply map_eq. intros i. rewrite stored_document_set_lookup by done.
    rewrite stored_representation_plain by done.
    case_decide; [subst; by rewrite lookup_delete_eq |].
    by rewrite lookup_delete_ne. }
  split; [done |].
  rewrite set_then_get by (by apply set_returns).
  apply read_result_absent; [done |]. by rewrite Hdoc, lookup_delete_eq.
Qed.

(** X8. With encryption available, a get with [secure] of a key that holds
    [null], a boolean or a number, set without [secure], throws a
    [TypeError]. *)
Theorem secure_get_of_plain_scalar_throws key value w :
  encryption_available w = true ->
  value = JNull \/ (exists b, value = JBool b) \/ (exists n, value = JNum n) ->
  ((setStorageValue key value false;; getStorageValue key true) w).1
  = Throw TypeError.
Proof.
  intros Havailable Hscalar.
  destruct (set_result_cases key value false w) as [Hreturns | Hthrows];
    [| by apply set_throws_then].
  rewrite set_then_get by done.
  erewrite read_result_own; cycle 1.
  { rewrite set_returns_binds by done. cbn.
    by destruct Hscalar as [-> | [[b ->] | [n ->]]]. }
  rewrite encryption_available_set, Havailable.
  by destruct Hscalar as [-> | [[b ->] | [n ->]]].
Qed.

(** X9. With encryption available, a get without [secure] of a key that
    was set with [secure], a name that [Object.prototype] does not define,
    decrypts nothing: it returns the hex text of the ciphertext of the
    string form of the value, as the file holds it. *)
Theorem plain_get_of_secure_value_is_hex key value plain w :
  encryption_available w = true ->
  inherited key = None ->
  String_ value = Some plain ->
  ((setStorageValue key value true;; getStorageValue key false) w).1
  = Ok (JStr (toString_hex (encryptString plain))).
Proof.
  intros Havailable Hkey Hplain.
  pose proof (has_representation_secure value w plain Hplain) as Hvalue.
  rewrite set_then_get by (by apply set_returns).
  rewrite plain_read_result, stored_document_set_eq by done.
  by erewrite stored_representation_secure.
Qed.

(** X10. A set on a file that is not JSON writes a document that holds the
    new key and nothing else: what the file held is gone, and every other
    key reads as [null]. The keys are names that [Object.prototype] does
    not define. *)
Theorem set_replaces_malformed_file key key' value secure secure' w :
  storage_json w = Some Malformed ->
  inherited key = None ->
  inherited key' = None ->
  has_representation secure w value ->
  key' <> key ->
  storage_json (setStorageValue key value secure w).2
    = Some (JSON_stringify {[ key := stored_representation secure w value ]}) /\
  ((setStorageValue key value secure;; getStorageValue key' secure') w).1
    = Ok JNull.
Proof.
  intros Hfile Hkey Hkey' Hvalue Hne.
  assert (stored_document w = ∅) as Hdoc
    by (unfold stored_document; by rewrite Hfile).
  split.
  - rewrite setStorageValue_ordinary by done. cbn [snd].
    by rewrite storage_json_update_world, Hdoc, insert_empty.
  - rewrite set_then_run, getStorageValue_run by (by apply set_returns).
    cbn [fst]. apply read_result_absent; [done |].
    by rewrite stored_document_set_ne, Hdoc, lookup_empty.
Qed.

(** X11. What a get returns is never [undefined]: it is [null] or a
    JSON-representable value, or, for the name of a property of
    [Object.prototype] that the document does not hold, the member the
    document inherits; a get throws only with [secure] and encryption
    available. *)
Theorem get_result_is_json key secure w :
  match (getStorageValue key secure w).1 with
  | Ok value => json_representable value
  | Native member =>
      inherited key = Some member /\ stored_document w !! key = None
  | Throw _ => secure = true /\ encryption_available w = true
  end.
Proof.
  rewrite getStorageValue_run. cbn [fst]. unfold read_result, get_property.
  destruct (stored_document w !! key) as [stored|] eqn:Hstored.
  - destruct secure, (encryption_available w); cbn;
      try by eapply stored_value_is_json.
    destruct (buffer_of stored) as [buffer|]; [| done].
    destruct (decryptString buffer); [constructor | done].
  - destruct (inherited key) as [member|]; [| constructor].
    by destruct secure, (encryption_available w).
Qed.

(** ** Named credentials *)

(** X12. [setSpotifyDc] and [getSpotifyDc] round-trip the credential,
    whether encryption is available or not, and no handler runs; on a store
    without the key [getSpotifyDc] returns [null]. *)
Theorem spotify_dc_round_trip (dc : string) w :
  cipher_round_trip ->
  ((setSpotifyDc dc;; getSpotifyDc) w).1 = Ok (JStr dc) /\
  List.filter is_handler_event (new_events (setSpotifyDc dc) w) = [] /\
  (stored_document w !! "sp_dc" = None -> (getSpotifyDc w).1 = Ok JNull).
Proof.
  intros Hcipher. unfold setSpotifyDc, getSpotifyDc.
  pose proof (has_representation_string true w dc) as Hvalue.
  split; [| split].
  - rewrite set_then_get by (by apply set_returns).
    destruct (encryption_available w) eqn:Havailable;
      [by apply secure_read_back |].
    erewrite read_result_own; cycle 1.
    { rewrite stored_document_set_eq by done.
      by rewrite stored_representation_plain by auto. }
    by rewrite encryption_available_set, Havailable.
  - by apply no_handler_no_dispatch.
  - intros Habsent. rewrite getStorageValue_run. cbn [fst].
    by apply read_result_absent.
Qed.

(** ** Handlers *)

(** X13. Where the value is stored as it is given (no [secure], or
    encryption unavailable), a set of a key with a registered handler runs
    that handler once, on the value given, after the document is written
    and the run is logged; nothing before the write is the work of a
    handler. *)
Theorem plain_set_runs_handler_once key value secure w handler :
  storageValueHandlers !! key = Some handler ->
  secure = false \/ encryption_available w = false ->
  exists before effect,
    new_events (setStorageValue key value secure) w =
      (before ++
       [WriteFile (path_join (userData w) "storage.json")
          (JSON_stringify (<[key := value]> (stored_document w)));
        Log ("Running handler for key: " ++ key) "Storage"] ++
       new_events (handler value) w)%list /\
    List.filter is_handler_event before = [] /\
    new_events (handler value) w = [effect] /\
    is_handler_event effect = true.
Proof.
  intros Hhandler Hplain. rewrite storageValueHandlers_lookup in Hhandler.
  destruct (handler_event key) as [effect|] eqn:Heffect; [| done].
  cbn in Hhandler. injection Hhandler as <-.
  assert (new_events (emit (effect value)) w = [effect value]) as Hrun.
  { unfold new_events, emit, record_event. cbn.
    by rewrite drop_app_length. }
  exists (Log ("Setting value for key: " ++ key) "Storage"
          :: (if secure && negb (encryption_available w)
              then [Log "WARNING: Encryption is not available, storing value as is."
                        "Storage"]
              else []) ++ seed_events w), (effect value).
  rewrite Hrun, new_events_set by (by apply has_representation_plain).
  unfold write_events.
  rewrite (dispatch_events_registered _ _ _ Heffect).
  rewrite set_property_ordinary by (by eapply handler_event_not_inherited).
  rewrite stored_representation_plain by done.
  split; [cbn; f_equal; by rewrite <- !app_assoc |].
  split.
  { cbn. rewrite List.filter_app, seed_events_quiet.
    by destruct (secure && negb (encryption_available w)). }
  split; [done |]. by eapply handler_event_is_handler.
Qed.

(** X14. A set that gets to its write runs exactly one handler when the
    key is ["launchOnStartup"], ["timeFormat"] or ["dateFormat"], the
    registered keys, and none for any other key; it reports the run of a
    handler for these keys and for the names of the properties of
    [Object.prototype], where the table hands out the inherited member and
    the set returns what the call of that member comes to. *)
Theorem set_runs_one_handler_iff_registered key value secure w :
  has_representation secure w value ->
  length (List.filter is_handler_event
            (new_events (setStorageValue key value secure) w))
    = (if storageValueHandlers !! key is Some _ then 1 else 0) /\
  (Log ("Running handler for key: " ++ key) "Storage"
     ∈ new_events (setStorageValue key value secure) w <->
   is_Some (storageValueHandlers !! key) \/ is_Some (inherited key)) /\
  (forall member,
     inherited key = Some member ->
     (setStorageValue key value secure w).1
     = call_result member (stored_representation secure w value)) /\
  (is_Some (storageValueHandlers !! key) <->
   key ∈ ["launchOnStartup"; "timeFormat"; "dateFormat"]).
Proof.
  intros Hvalue. rewrite storageValueHandlers_lookup.
  split; [| split; [| split]].
  - rewrite new_events_set, write_events_handlers by done.
    by destruct (handler_event key).
  - destruct (handler_event key) as [effect|] eqn:Heffect; cbn.
    + split; [intros _; left; by eexists |]. intros _.
      rewrite new_events_set by done. unfold write_events.
      rewrite (dispatch_events_registered _ _ _ Heffect).
      rewrite !elem_of_app. do 4 right. apply list_elem_of_here.
    + destruct (inherited key) as [member|] eqn:Hkey.
      * split; [intros _; right; by eexists |]. intros _.
        rewrite new_events_set by done. unfold write_events, dispatch_events.
        rewrite Heffect, Hkey, !elem_of_app.
        do 4 right. apply list_elem_of_here.
      * split; [| intros [[? [=]] | [? [=]]]]. intros Hin.
        destruct (no_handler_no_dispatch key value secure w) as [_ Hnone];
          [by rewrite storageValueHandlers_lookup, Heffect |].
        by destruct (Hnone Hkey).
  - intros member Hkey.
    rewrite setStorageValue_run, has_representation_encoded by done.
    cbn [fst]. unfold dispatch_result. rewrite Hkey.
    destruct (handler_event key) as [effect|] eqn:Heffect; [| done].
    apply handler_event_not_inherited in Heffect. congruence.
  - unfold handler_event. rewrite !elem_of_cons, elem_of_nil.
    repeat case_decide; cbn; split; intros Hkey; eauto.
    + by apply is_Some_None in Hkey.
    + by destruct Hkey as [? | [? | [? | []]]].
Qed.

(** X15. A set that gets to its write writes [storage.json] once, whole,
    with the document it read and the key assigned ([__proto__], which the
    document inherits as an accessor, is left unbound; any other key is
    bound anew); the only other write is the ['{}'] that creates a missing
    file first. *)
Theorem set_writes_document_once key value secure w :
  has_representation secure w value ->
  List.filter is_write (new_events (setStorageValue key value secure) w)
  = (List.filter is_write (new_events getStoragePath w) ++
     [WriteFile (path_join (userData w) "storage.json")
        (JSON_stringify
           (set_property (stored_document w) key
              (stored_representation secure w value)))])%list /\
  (inherited key = None ->
   set_property (stored_document w) key (stored_representation secure w value)
   = <[key := stored_representation secure w value]> (stored_document w)) /\
  (is_Some (storage_json w) ->
   List.filter is_write (new_events getStoragePath w) = []).
Proof.
  intros Hvalue.
  assert (new_events getStoragePath w = seed_events w) as ->.
  { eapply new_events_update_world. apply getStoragePath_run. }
  assert (List.filter is_write (seed_events w) = seed_events w) as Hseed
    by (unfold seed_events; by destruct (storage_json w)).
  split; [| split].
  - rewrite new_events_set by done. unfold write_events, dispatch_events.
    cbn. rewrite !List.filter_app, Hseed.
    destruct (handler_event key) as [effect|] eqn:Heffect.
    + assert (forall v, is_write (effect v) = false) as Heffect'.
      { unfold handler_event in Heffect.
        by repeat case_decide; simplify_eq. }
      cbn. rewrite Heffect'.
      by destruct (secure && negb (encryption_available w)).
    + by destruct (secure && negb (encryption_available w)), (inherited key).
  - intros Hkey. by apply set_property_ordinary.
  - intros [text Htext]. unfold seed_events. by rewrite Htext.
Qed.

(** ** The socket password, once more *)

Lemma stored_document_get key secure w :
  stored_document (getStorageValue key secure w).2 = stored_document w.
Proof.
  rewrite getStorageValue_run. cbn [snd].
  by rewrite stored_document_update_world, stored_document_seeded.
Qed.

Lemma socket_password_world w :
  (getSocketPassword w).2 =
  match (getStorageValue "socketPassword" true w).1 with
  | Ok value =>
      if truthy value then (getStorageValue "socketPassword" true w).2
      else (setStorageValue "socketPassword"
              (JStr (random_string 64 (entropy w))) true
              (draw (getStorageValue "socketPassword" true w).2)).2
  | _ => (getStorageValue "socketPassword" true w).2
  end.
Proof.
  rewrite getSocketPassword_run, getStorageValue_run. cbn [fst snd].
  destruct (read_result "socketPassword" true w) as [value|e|member];
    [| done | done].
  by destruct (truthy value).
Qed.

(** X16. [getSocketPassword] leaves every other key as it is: a get of
    another key returns after it what it returned before. *)
Theorem socket_password_keeps_other_keys key secure w :
  key <> "socketPassword" ->
  (getStorageValue key secure (getSocketPassword w).2).1
  = (getStorageValue key secure w).1.
Proof.
  intros Hne. rewrite socket_password_world, !getStorageValue_run.
  cbn [fst snd].
  set (got := update_world (seeded_file w)
                (read_events "socketPassword" true w) w).
  assert (read_result key secure got = read_result key secure w) as Hgot
    by apply read_result_update_world.
  destruct (read_result "socketPassword" true w) as [value|e|member];
    [| done | done].
  destruct (truthy value); [done |].
  rewrite <- Hgot. apply read_result_ext.
  - by rewrite stored_document_set_ne.
  - by rewrite encryption_available_set.
Qed.

(** X17. When the secure read of the key gives a falsy value (the key is
    absent, or holds an empty string), [getSocketPassword] draws a string
    of 64 characters from the random generator, returns it, and leaves it
    in the document under the key, encrypted when encryption is
    available. *)
Theorem socket_password_replaces_falsy value w :
  (getStorageValue "socketPassword" true w).1 = Ok value ->
  truthy value = false ->
  (getSocketPassword w).1 = Ok (JStr (random_string 64 (entropy w))) /\
  stored_document (getSocketPassword w).2 !! "socketPassword"
    = Some (stored_representation true w
              (JStr (random_string 64 (entropy w)))) /\
  entropy (getSocketPassword w).2 = S (entropy w).
Proof.
  intros Hread Hfalsy. rewrite socket_password_world, Hread, Hfalsy.
  rewrite getSocketPassword_run.
  rewrite getStorageValue_run in Hread. cbn [fst] in Hread.
  rewrite Hread, Hfalsy. cbn [fst].
  split; [done |]. split.
  - rewrite stored_document_set_eq
      by (done || apply has_representation_string).
    unfold stored_representation.
    cbn [draw update_world encryption_available].
    rewrite getStorageValue_run. cbn [snd update_world encryption_available].
    by destruct (true && encryption_available w).
  - rewrite setStorageValue_ordinary
      by (done || apply has_representation_string).
    by rewrite getStorageValue_run.
Qed.

(** X18. When the secure read of the key gives a truthy value, or throws,
    [getSocketPassword] does what that read does and nothing more: the same
    result, no write, nothing drawn from the random generator. *)
Theorem socket_password_reuses_stored w :
  (forall value,
     (getStorageValue "socketPassword" true w).1 = Ok value ->
     truthy value = true) ->
  getSocketPassword w = getStorageValue "socketPassword" true w.
Proof.
  intros Htruthy. rewrite getSocketPassword_run.
  rewrite getStorageValue_run in *. cbn [fst] in Htruthy.
  destruct (read_result "socketPassword" true w) as [value|e|member];
    [| done | done].
  by rewrite (Htruthy value).
Qed.

(** ** The settings page and the store *)

Lemma api_getStorageValue_run key w :
  inherited key = None ->
  api_getStorageValue key w =
  (Ok (default JNull (stored_document w !! key)),
   (getStorageValue key false w).2).
Proof.
  intros Hkey. unfold api_getStorageValue.
  by rewrite getStorageValue_run, plain_read_result.
Qed.

Lemma two_reads {A} k1 k2 (f : jsval -> jsval -> A) w :
  inherited k1 = None ->
  inherited k2 = None ->
  ((a ← api_getStorageValue k1; b ← api_getStorageValue k2; mret (f a b))
     w).1
  = Ok (f (default JNull (stored_document w !! k1))
          (default JNull (stored_document w !! k2))).
Proof.
  intros Hk1 Hk2.
  rewrite bind_run, api_getStorageValue_run by done.
  rewrite bind_run, api_getStorageValue_run by done.
  by rewrite stored_document_get.
Qed.

Lemma one_read {A} key (f : jsval -> A) w :
  inherited key = None ->
  ((a ← api_getStorageValue key; mret (f a)) w).1
  = Ok (f (default JNull (stored_document w !! key))).
Proof. intros Hkey. by rewrite bind_run, api_getStorageValue_run. Qed.

Lemma plain_set_then_run {A} key value (m : M A) w :
  inherited key = None ->
  (setStorageValue key value false;; m) w =
  m (setStorageValue key value false w).2.
Proof. intros Hkey. by apply set_then_run, set_returns. Qed.

Lemma plain_set_lookup key value w i :
  inherited key = None ->
  stored_document (setStorageValue key value false w).2 !! i =
  if decide (key = i) then jsonify_property value
  else stored_document w !! i.
Proof. intros Hkey. by rewrite stored_document_set_lookup. Qed.

Lemma plain_set_no_handler key value w :
  storageValueHandlers !! key = None ->
  List.filter is_handler_event (new_events (setStorageValue key value false) w)
  = [].
Proof. intros Hnone. by apply no_handler_no_dispatch. Qed.

(** X19. The startup tab shows what was saved: after the switch "Launch on
    startup" or "Launch minimized" has set a value, loading the tab gives
    that value for the one field and what it gave before for the other;
    only the first switch has a handler, which is run on the value. *)
Theorem startup_tab_shows_saved_switch (value : bool) before w :
  (StartupTab_loadSettings w).1 = Ok before ->
  ((StartupTab_onChange_launchOnStartup value;; StartupTab_loadSettings) w).1
    = Ok {| launchOnStartup := value;
            launchMinimized := launchMinimized before |} /\
  ((StartupTab_onChange_launchMinimized value;; StartupTab_loadSettings) w).1
    = Ok {| launchOnStartup := launchOnStartup before;
            launchMinimized := value |} /\
  List.filter is_handler_event
    (new_events (StartupTab_onChange_launchOnStartup value) w)
    = [SetLoginItemSettings (JBool value)] /\
  List.filter is_handler_event
    (new_events (StartupTab_onChange_launchMinimized value) w) = [].
Proof.
  unfold StartupTab_loadSettings, StartupTab_onChange_launchOnStartup,
    StartupTab_onChange_launchMinimized, api_setStorageValue.
  rewrite !plain_set_then_run, !two_reads by done. intros [= <-]. cbn.
  rewrite !plain_set_lookup by done. cbn.
  repeat case_decide; try done.
  split; [by destruct value |]. split; [by destruct value |]. split.
  - by apply (handler_gets_given_value "launchOnStartup" (JBool value)
                false w SetLoginItemSettings); [| left].
  - by apply plain_set_no_handler.
Qed.

(** X20. The client tab shows what was saved and never an empty format:
    after a format that is not the empty string has been set, loading the
    tab gives it for the one field and what it gave before for the other,
    and [updateTime] is run on it; whatever the store holds, both fields
    load truthy. *)
Theorem client_tab_shows_saved_format (value : string) before w :
  value <> "" ->
  (ClientTab_loadSettings w).1 = Ok before ->
  ((handleTimeFormatChange value;; ClientTab_loadSettings) w).1
    = Ok {| timeFormat := JStr value; dateFormat := dateFormat before |} /\
  ((handleDateFormatChange value;; ClientTab_loadSettings) w).1
    = Ok {| timeFormat := timeFormat before; dateFormat := JStr value |} /\
  List.filter is_handler_event (new_events (handleTimeFormatChange value) w)
    = [UpdateTime (JStr value)] /\
  List.filter is_handler_event (new_events (handleDateFormatChange value) w)
    = [UpdateTime (JStr value)] /\
  truthy (timeFormat before) = true /\ truthy (dateFormat before) = true.
Proof.
  intros Hvalue.
  unfold ClientTab_loadSettings, handleTimeFormatChange,
    handleDateFormatChange, api_setStorageValue.
  rewrite !plain_set_then_run, !two_reads by done. intros [= <-].
  cbn [timeFormat dateFormat].
  rewrite !plain_set_lookup by done.
  cbn [jsonify_property jsonify].
  repeat case_decide; try done. cbn [default id].
  assert (or_else (JStr value) (JStr "HH:mm") = JStr value /\
          or_else (JStr value) (JStr "ddd, D MMM") = JStr value)
    as [-> ->].
  { unfold or_else. cbn. by destruct value. }
  split; [done |]. split; [done |]. split; [| split; [| split]].
  - by apply (handler_gets_given_value "timeFormat" (JStr value)
                false w UpdateTime); [| left].
  - by apply (handler_gets_given_value "dateFormat" (JStr value)
                false w UpdateTime); [| left].
  - unfold or_else. by case_match.
  - unfold or_else. by case_match.
Qed.

(** X21. The switches of the general and of the advanced tab show what was
    saved: after "Install Automatically" or "Disable WebSocket
    Authentication" has set a value, loading the tab gives it, and no
    handler is run. *)
Theorem single_switch_tabs_show_saved_value (value : bool) w :
  ((GeneralTab_onChange_installAutomatically value;;
    GeneralTab_loadSettings) w).1 = Ok value /\
  ((AdvancedTab_onChange_disableSocketAuth value;;
    AdvancedTab_loadSettings) w).1 = Ok value /\
  List.filter is_handler_event
    (new_events (GeneralTab_onChange_installAutomatically value) w) = [] /\
  List.filter is_handler_event
    (new_events (AdvancedTab_onChange_disableSocketAuth value) w) = [].
Proof.
  unfold GeneralTab_loadSettings, GeneralTab_onChange_installAutomatically,
    AdvancedTab_loadSettings, AdvancedTab_onChange_disableSocketAuth,
    api_setStorageValue.
  rewrite !plain_set_then_run, !one_read, !plain_set_lookup by done. cbn.
  split; [by destruct value |]. split; [by destruct value |].
  split; by apply plain_set_no_handler.
Qed.

(** X22. On a store whose file is missing or is not JSON every tab loads
    its defaults: the switches off, the formats ["HH:mm"] and
    ["ddd, D MMM"]. *)
Theorem tabs_load_defaults_without_document w :
  storage_json w = None \/ storage_json w = Some Malformed ->
  (GeneralTab_loadSettings w).1 = Ok false /\
  (ClientTab_loadSettings w).1
    = Ok {| timeFormat := JStr "HH:mm"; dateFormat := JStr "ddd, D MMM" |} /\
  (StartupTab_loadSettings w).1
    = Ok {| launchOnStartup := false; launchMinimized := false |} /\
  (AdvancedTab_loadSettings w).1 = Ok false.
Proof.
  intros Hfile.
  assert (stored_document w = ∅) as Hdoc
    by (unfold stored_document; by destruct Hfile as [-> | ->]).
  unfold GeneralTab_loadSettings, ClientTab_loadSettings,
    StartupTab_loadSettings, AdvancedTab_loadSettings.
  by rewrite !one_read, !two_reads, Hdoc, !lookup_empty by done.
Qed.

End MoreProperties.

(** ** The about tab *)

Lemma AboutTab_clicks n (on : bool) :
  Nat.iter n AboutTab_onClick {| timesClicked := 0; devMode := on |}
  = {| timesClicked := n; devMode := on || (5 <=? n)%nat |}.
Proof.
  induction n as [|n IH]; [by rewrite orb_false_r |].
  rewrite Nat.iter_succ, IH. unfold AboutTab_onClick, AboutTab_effect.
  cbn [timesClicked devMode]. rewrite Nat.add_1_r.
  destruct on; cbn [orb].
  - by destruct (S n <=? 0)%nat.
  - destruct (5 <=? n)%nat eqn:Hn.
    + apply Nat.leb_le in Hn.
      assert ((5 <=? S n)%nat = true) as -> by (apply Nat.leb_le; lia).
      by destruct (S n <=? 0)%nat.
    + change (S n <=? 0)%nat with false. cbn [negb].
      by destruct (5 <=? S n)%nat.
Qed.

(** X23. With developer mode off, clicks on the version turn it on at the
    fifth click and not before; it stays on at every later click, and the
    clicks never turn it off. *)
Theorem about_tab_unlocks_at_fifth_click n (on : bool) :
  devMode (Nat.iter n AboutTab_onClick {| timesClicked := 0; devMode := on |})
    = on || (5 <=? n)%nat /\
  (on = false ->
   (devMode
      (Nat.iter n AboutTab_onClick {| timesClicked := 0; devMode := on |})
    = true <-> 5 <= n)).
Proof.
  rewrite AboutTab_clicks. cbn [devMode]. split; [done |].
  intros ->. cbn [orb]. apply Nat.leb_le.
Qed.

(** ** The further properties at work on the test platform *)

Section MoreWitnesses.
#[local] Existing Instance TestPlatform.platform.

Lemma getStoragePath_keeps_existing_file_witness :
  is_Some (storage_json (TestPlatform.world (Some Malformed) true)) /\
  (getStoragePath (TestPlatform.world (Some Malformed) true)).2
  = TestPlatform.world (Some Malformed) true.
Proof.
  assert (is_Some (storage_json (TestPlatform.world (Some Malformed) true)))
    as Hfile by (exists Malformed; vm_compute; reflexivity).
  split; [exact Hfile |].
  destruct (getStoragePath_keeps_existing_file
              (TestPlatform.world (Some Malformed) true))
    as (_ & _ & Hkept & _).
  exact (Hkept Hfile).
Defined.

Lemma get_never_writes_witness :
  is_Some (storage_json (TestPlatform.world (Some (JsonText ∅)) true)) /\
  files (getStorageValue "sp_dc" true
           (TestPlatform.world (Some (JsonText ∅)) true)).2
  = files (TestPlatform.world (Some (JsonText ∅)) true) /\
  forallb is_log
    (new_events (getStorageValue "sp_dc" true)
       (TestPlatform.world (Some (JsonText ∅)) true)) = true.
Proof.
  assert (is_Some (storage_json (TestPlatform.world (Some (JsonText ∅)) true)))
    as Hfile by (exists (JsonText ∅); vm_compute; reflexivity).
  split; [exact Hfile |].
  destruct (get_never_writes "sp_dc" true
              (TestPlatform.world (Some (JsonText ∅)) true)) as [_ Hquiet].
  exact (Hquiet Hfile).
Defined.

Lemma other_files_untouched_witness :
  "/home/user/notes.txt"
    <> path_join (userData (TestPlatform.world None true)) "storage.json" /\
  files (getStorageValue "sp_dc" true (TestPlatform.world None true)).2
    !! "/home/user/notes.txt"
  = files (TestPlatform.world None true) !! "/home/user/notes.txt" /\
  files (setStorageValue "sp_dc" (JStr "cookie") true
           (TestPlatform.world None true)).2 !! "/home/user/notes.txt"
  = files (TestPlatform.world None true) !! "/home/user/notes.txt" /\
  files (getSocketPassword (TestPlatform.world None true)).2
    !! "/home/user/notes.txt"
  = files (TestPlatform.world None true) !! "/home/user/notes.txt".
Proof.
  assert ("/home/user/notes.txt"
          <> path_join (userData (TestPlatform.world None true))
               "storage.json") as Hpath by (vm_compute; discriminate).
  split; [exact Hpath |].
  exact (other_files_untouched "/home/user/notes.txt" "sp_dc" (JStr "cookie")
           true (TestPlatform.world None true) Hpath).
Defined.

Lemma write_then_read_storage_witness :
  (forall key value,
     ({[ "timeFormat" := JStr "HH:mm" ]} : gmap string jsval) !! key
       = Some value -> json_representable value) /\
  ((writeStorage {[ "timeFormat" := JStr "HH:mm" ]};; getStorage)
     (TestPlatform.world (Some Malformed) true)).1
  = Ok {[ "timeFormat" := JStr "HH:mm" ]}.
Proof.
  assert (forall key value,
            ({[ "timeFormat" := JStr "HH:mm" ]} : gmap string jsval) !! key
              = Some value -> json_representable value) as Hjson.
  { intros key value [_ <-]%lookup_singleton_Some. constructor. }
  split; [exact Hjson |].
  destruct (write_then_read_storage {[ "timeFormat" := JStr "HH:mm" ]}
              (TestPlatform.world (Some Malformed) true)) as [_ Hback].
  exact (Hback Hjson).
Defined.

Lemma last_set_wins_witness :
  inherited "timeFormat" = None /\
  has_representation false (TestPlatform.world None true) (JStr "HH:mm") /\
  has_representation true (TestPlatform.world None true) (JStr "h:mm A") /\
  stored_document
    ((setStorageValue "timeFormat" (JStr "HH:mm") false;;
      setStorageValue "timeFormat" (JStr "h:mm A") true)
       (TestPlatform.world None true)).2
  = jsonify_document
      (<["timeFormat" :=
           stored_representation true (TestPlatform.world None true)
             (JStr "h:mm A")]>
         (stored_document (TestPlatform.world None true))).
Proof.
  assert (has_representation false (TestPlatform.world None true)
            (JStr "HH:mm")) as Hfirst
    by (intros _; exists "HH:mm"; reflexivity).
  assert (has_representation true (TestPlatform.world None true)
            (JStr "h:mm A")) as Hsecond
    by (intros _; exists "h:mm A"; reflexivity).
  split; [reflexivity |]. split; [exact Hfirst |]. split; [exact Hsecond |].
  exact (last_set_wins "timeFormat" (JStr "HH:mm") (JStr "h:mm A") false true
           (TestPlatform.world None true) eq_refl Hfirst Hsecond).
Defined.

Lemma sets_of_distinct_keys_commute_witness :
  inherited "timeFormat" = None /\
  inherited "dateFormat" = None /\
  (false = false \/
   encryption_available (TestPlatform.world None true) = false) /\
  "timeFormat" <> "dateFormat" /\
  stored_document
    ((setStorageValue "timeFormat" (JStr "HH:mm") false;;
      setStorageValue "dateFormat" (JStr "ddd, D MMM") false)
       (TestPlatform.world None true)).2
  = stored_document
      ((setStorageValue "dateFormat" (JStr "ddd, D MMM") false;;
        setStorageValue "timeFormat" (JStr "HH:mm") false)
         (TestPlatform.world None true)).2.
Proof.
  assert ("timeFormat" <> "dateFormat") as Hne by discriminate.
  split; [reflexivity |]. split; [reflexivity |].
  split; [by left |]. split; [exact Hne |].
  destruct (sets_of_distinct_keys_commute "timeFormat" "dateFormat"
              (JStr "HH:mm") (JStr "ddd, D MMM") false false
              (TestPlatform.world None true) eq_refl eq_refl
              (or_introl eq_refl) (or_introl eq_refl) Hne)
    as [Hone Hother].
  exact (eq_trans Hone (eq_sym Hother)).
Defined.

Lemma set_keeps_other_reads_witness :
  "sp_dc" <> "valueOf" /\
  (getStorageValue "sp_dc" true
     (setStorageValue "valueOf" (JStr "HH:mm") false
        (TestPlatform.world None true)).2).1
  = (getStorageValue "sp_dc" true (TestPlatform.world None true)).1.
Proof.
  assert ("sp_dc" <> "valueOf") as Hne by discriminate.
  split; [exact Hne |].
  exact (set_keeps_other_reads "valueOf" "sp_dc" (JStr "HH:mm") false true
           (TestPlatform.world None true) Hne).
Defined.

Lemma set_undefined_removes_key_witness :
  inherited "timeFormat" = None /\
  (false = false \/
   encryption_available
     (TestPlatform.world
        (Some (JsonText {[ "timeFormat" := JStr "HH:mm" ]})) true) = false) /\
  stored_document
    (setStorageValue "timeFormat" JUndefined false
       (TestPlatform.world
          (Some (JsonText {[ "timeFormat" := JStr "HH:mm" ]})) true)).2
  = delete "timeFormat"
      (stored_document
         (TestPlatform.world
            (Some (JsonText {[ "timeFormat" := JStr "HH:mm" ]})) true)) /\
  ((setStorageValue "timeFormat" JUndefined false;;
    getStorageValue "timeFormat" false)
     (TestPlatform.world
        (Some (JsonText {[ "timeFormat" := JStr "HH:mm" ]})) true)).1
  = Ok JNull.
Proof.
  split; [reflexivity |]. split; [by left |].
  exact (set_undefined_removes_key "timeFormat" false false
           (TestPlatform.world
              (Some (JsonText {[ "timeFormat" := JStr "HH:mm" ]})) true)
           eq_refl (or_introl eq_refl)).
Defined.

Lemma secure_get_of_plain_scalar_throws_witness :
  encryption_available (TestPlatform.world None true) = true /\
  (JBool true = JNull \/ (exists b, JBool true = JBool b) \/
   (exists n, JBool true = JNum n)) /\
  ((setStorageValue "launchOnStartup" (JBool true) false;;
    getStorageValue "launchOnStartup" true)
     (TestPlatform.world None true)).1 = Throw TypeError.
Proof.
  assert (JBool true = JNull \/ (exists b, JBool true = JBool b) \/
          (exists n, JBool true = JNum n)) as Hscalar
    by (right; left; by exists true).
  split; [reflexivity |]. split; [exact Hscalar |].
  exact (secure_get_of_plain_scalar_throws "launchOnStartup" (JBool true)
           (TestPlatform.world None true) eq_refl Hscalar).
Defined.

Lemma plain_get_of_secure_value_is_hex_witness :
  encryption_available (TestPlatform.world None true) = true /\
  inherited "sp_dc" = None /\
  String_ (JArr [JStr "a"; JNull; JBool true]) = Some "a,,true" /\
  ((setStorageValue "sp_dc" (JArr [JStr "a"; JNull; JBool true]) true;;
    getStorageValue "sp_dc" false) (TestPlatform.world None true)).1
  = Ok (JStr (toString_hex (encryptString "a,,true"))).
Proof.
  split; [reflexivity |]. split; [reflexivity |]. split; [reflexivity |].
  exact (plain_get_of_secure_value_is_hex "sp_dc"
           (JArr [JStr "a"; JNull; JBool true]) "a,,true"
           (TestPlatform.world None true) eq_refl eq_refl eq_refl).
Defined.

Lemma set_replaces_malformed_file_witness :
  storage_json (TestPlatform.world (Some Malformed) false) = Some Malformed /\
  inherited "timeFormat" = None /\
  inherited "dateFormat" = None /\
  has_representation false (TestPlatform.world (Some Malformed) false)
    (JStr "HH:mm") /\
  "dateFormat" <> "timeFormat" /\
  storage_json
    (setStorageValue "timeFormat" (JStr "HH:mm") false
       (TestPlatform.world (Some Malformed) false)).2
  = Some (JSON_stringify
            {[ "timeFormat" :=
                 stored_representation false
                   (TestPlatform.world (Some Malformed) false)
                   (JStr "HH:mm") ]}) /\
  ((setStorageValue "timeFormat" (JStr "HH:mm") false;;
    getStorageValue "dateFormat" false)
     (TestPlatform.world (Some Malformed) false)).1 = Ok JNull.
Proof.
  assert (storage_json (TestPlatform.world (Some Malformed) false)
          = Some Malformed) as Hfile by (vm_compute; reflexivity).
  assert (has_representation false (TestPlatform.world (Some Malformed) false)
            (JStr "HH:mm")) as Hvalue
    by (intros _; exists "HH:mm"; reflexivity).
  assert ("dateFormat" <> "timeFormat") as Hne by discriminate.
  split; [exact Hfile |]. split; [reflexivity |]. split; [reflexivity |].
  split; [exact Hvalue |]. split; [exact Hne |].
  exact (set_replaces_malformed_file "timeFormat" "dateFormat" (JStr "HH:mm")
           false false _ Hfile eq_refl eq_refl Hvalue Hne).
Defined.

Lemma spotify_dc_round_trip_witness :
  cipher_round_trip /\
  ((setSpotifyDc "cookie";; getSpotifyDc) (TestPlatform.world None true)).1
    = Ok (JStr "cookie") /\
  List.filter is_handler_event
    (new_events (setSpotifyDc "cookie") (TestPlatform.world None true)) = [] /\
  (stored_document (TestPlatform.world None true) !! "sp_dc" = None ->
   (getSpotifyDc (TestPlatform.world None true)).1 = Ok JNull).
Proof.
  split; [exact test_cipher_round_trip |].
  exact (spotify_dc_round_trip "cookie" (TestPlatform.world None true)
           test_cipher_round_trip).
Defined.

Lemma plain_set_runs_handler_once_witness :
  storageValueHandlers !! "timeFormat" = Some updateTime /\
  (false = false \/
   encryption_available (TestPlatform.world None true) = false) /\
  exists before effect,
    new_events (setStorageValue "timeFormat" (JStr "HH:mm") false)
      (TestPlatform.world None true) =
      (before ++
       [WriteFile
          (path_join (userData (TestPlatform.world None true)) "storage.json")
          (JSON_stringify
             (<["timeFormat" := JStr "HH:mm"]>
                (stored_document (TestPlatform.world None true))));
        Log ("Running handler for key: " ++ "timeFormat") "Storage"] ++
       new_events (updateTime (JStr "HH:mm"))
         (TestPlatform.world None true))%list /\
    List.filter is_handler_event before = [] /\
    new_events (updateTime (JStr "HH:mm")) (TestPlatform.world None true)
      = [effect] /\
    is_handler_event effect = true.
Proof.
  assert (storageValueHandlers !! "timeFormat" = Some updateTime) as Hhandler
    by reflexivity.
  split; [exact Hhandler |]. split; [by left |].
  exact (plain_set_runs_handler_once "timeFormat" (JStr "HH:mm") false
           (TestPlatform.world None true) updateTime Hhandler
           (or_introl eq_refl)).
Defined.

Lemma set_runs_one_handler_iff_registered_witness :
  has_representation true (TestPlatform.world None true) (JStr "x") /\
  (Log ("Running handler for key: " ++ "toString") "Storage"
     ∈ new_events (setStorageValue "toString" (JStr "x") true)
         (TestPlatform.world None true) <->
   is_Some (storageValueHandlers !! "toString") \/
   is_Some (inherited "toString")).
Proof.
  assert (has_representation true (TestPlatform.world None true) (JStr "x"))
    as Hvalue by (intros _; exists "x"; reflexivity).
  split; [exact Hvalue |].
  destruct (set_runs_one_handler_iff_registered "toString" (JStr "x") true
              (TestPlatform.world None true) Hvalue) as (_ & Hlog & _).
  exact Hlog.
Defined.

Lemma set_writes_document_once_witness :
  has_representation true (TestPlatform.world (Some Malformed) true)
    (JStr "cookie") /\
  List.filter is_write
    (new_events (setStorageValue "__proto__" (JStr "cookie") true)
       (TestPlatform.world (Some Malformed) true))
  = (List.filter is_write
       (new_events getStoragePath (TestPlatform.world (Some Malformed) true)) ++
     [WriteFile
        (path_join (userData (TestPlatform.world (Some Malformed) true))
           "storage.json")
        (JSON_stringify
           (set_property
              (stored_document (TestPlatform.world (Some Malformed) true))
              "__proto__"
              (stored_representation true
                 (TestPlatform.world (Some Malformed) true)
                 (JStr "cookie"))))])%list.
Proof.
  assert (has_representation true (TestPlatform.world (Some Malformed) true)
            (JStr "cookie")) as Hvalue
    by (intros _; exists "cookie"; reflexivity).
  split; [exact Hvalue |].
  destruct (set_writes_document_once "__proto__" (JStr "cookie") true
              (TestPlatform.world (Some Malformed) true) Hvalue)
    as [Hwrites _].
  exact Hwrites.
Defined.

Lemma socket_password_keeps_other_keys_witness :
  "sp_dc" <> "socketPassword" /\
  (getStorageValue "sp_dc" true
     (getSocketPassword (TestPlatform.world None true)).2).1
  = (getStorageValue "sp_dc" true (TestPlatform.world None true)).1.
Proof.
  assert ("sp_dc" <> "socketPassword") as Hne by discriminate.
  split; [exact Hne |].
  exact (socket_password_keeps_other_keys "sp_dc" true
           (TestPlatform.world None true) Hne).
Defined.

Lemma socket_password_replaces_falsy_witness :
  (getStorageValue "socketPassword" true
     (TestPlatform.world
        (Some (JsonText {[ "socketPassword" := JStr "" ]})) false)).1
    = Ok (JStr "") /\
  truthy (JStr "") = false /\
  (getSocketPassword
     (TestPlatform.world
        (Some (JsonText {[ "socketPassword" := JStr "" ]})) false)).1
    = Ok (JStr (random_string 64 0)).
Proof.
  assert ((getStorageValue "socketPassword" true
             (TestPlatform.world
                (Some (JsonText {[ "socketPassword" := JStr "" ]})) false)).1
          = Ok (JStr "")) as Hread by (vm_compute; reflexivity).
  split; [exact Hread |]. split; [reflexivity |].
  destruct (socket_password_replaces_falsy (JStr "") _ Hread eq_refl)
    as [Hresult _].
  exact Hresult.
Defined.

Lemma socket_password_reuses_stored_witness :
  (forall value,
     (getStorageValue "socketPassword" true
        (TestPlatform.world
           (Some (JsonText {[ "socketPassword" := JStr "secret" ]}))
           false)).1 = Ok value ->
     truthy value = true) /\
  getSocketPassword
    (TestPlatform.world
       (Some (JsonText {[ "socketPassword" := JStr "secret" ]})) false)
  = getStorageValue "socketPassword" true
      (TestPlatform.world
         (Some (JsonText {[ "socketPassword" := JStr "secret" ]})) false).
Proof.
  assert (forall value,
            (getStorageValue "socketPassword" true
               (TestPlatform.world
                  (Some (JsonText {[ "socketPassword" := JStr "secret" ]}))
                  false)).1 = Ok value ->
            truthy value = true) as Htruthy.
  { intros value Hread. vm_compute in Hread.
    injection Hread as <-. reflexivity. }
  split; [exact Htruthy |].
  exact (socket_password_reuses_stored _ Htruthy).
Defined.

Lemma startup_tab_shows_saved_switch_witness :
  (StartupTab_loadSettings (TestPlatform.world None false)).1
    = Ok {| launchOnStartup := false; launchMinimized := false |} /\
  ((StartupTab_onChange_launchOnStartup true;; StartupTab_loadSettings)
     (TestPlatform.world None false)).1
    = Ok {| launchOnStartup := true; launchMinimized := false |}.
Proof.
  assert ((StartupTab_loadSettings (TestPlatform.world None false)).1
          = Ok {| launchOnStartup := false; launchMinimized := false |})
    as Hbefore by (vm_compute; reflexivity).
  split; [exact Hbefore |].
  destruct (startup_tab_shows_saved_switch true _ _ Hbefore) as [Hshown _].
  exact Hshown.
Defined.

Lemma client_tab_shows_saved_format_witness :
  "h:mm A" <> "" /\
  (ClientTab_loadSettings (TestPlatform.world None false)).1
    = Ok {| timeFormat := JStr "HH:mm"; dateFormat := JStr "ddd, D MMM" |} /\
  ((handleTimeFormatChange "h:mm A";; ClientTab_loadSettings)
     (TestPlatform.world None false)).1
    = Ok {| timeFormat := JStr "h:mm A"; dateFormat := JStr "ddd, D MMM" |}.
Proof.
  assert ("h:mm A" <> "") as Hvalue by discriminate.
  assert ((ClientTab_loadSettings (TestPlatform.world None false)).1
          = Ok {| timeFormat := JStr "HH:mm";
                  dateFormat := JStr "ddd, D MMM" |})
    as Hbefore by (vm_compute; reflexivity).
  split; [exact Hvalue |]. split; [exact Hbefore |].
  destruct (client_tab_shows_saved_format "h:mm A" _ _ Hvalue Hbefore)
    as [Hshown _].
  exact Hshown.
Defined.

Lemma tabs_load_defaults_without_document_witness :
  (storage_json (TestPlatform.world (Some Malformed) true) = None \/
   storage_json (TestPlatform.world (Some Malformed) true) = Some Malformed) /\
  (GeneralTab_loadSettings (TestPlatform.world (Some Malformed) true)).1
    = Ok false /\
  (ClientTab_loadSettings (TestPlatform.world (Some Malformed) true)).1
    = Ok {| timeFormat := JStr "HH:mm"; dateFormat := JStr "ddd, D MMM" |} /\
  (StartupTab_loadSettings (TestPlatform.world (Some Malformed) true)).1
    = Ok {| launchOnStartup := false; launchMinimized := false |} /\
  (AdvancedTab_loadSettings (TestPlatform.world (Some Malformed) true)).1
    = Ok false.
Proof.
  assert (storage_json (TestPlatform.world (Some Malformed) true) = None \/
          storage_json (TestPlatform.world (Some Malformed) true)
          = Some Malformed) as Hfile by (right; vm_compute; reflexivity).
  split; [exact Hfile |].
  exact (tabs_load_defaults_without_document _ Hfile).
Defined.

End MoreWitnesses.

Lemma about_tab_unlocks_at_fifth_click_witness :
  false = false /\
  (devMode
     (Nat.iter 5 AboutTab_onClick {| timesClicked := 0; devMode := false |})
   = true <-> 5 <= 5).
Proof.
  split; [reflexivity |].
  destruct (about_tab_unlocks_at_fifth_click 5 false) as [_ Hunlock].
  exact (Hunlock eq_refl).
Defined.

